(** * ADUVC: a shallow embedding of the area-detector driver for UVC cameras

    The development follows [adUVCApp/src/ADUVC.cpp].  The driver object is a
    record that is threaded through every method by a small state monad whose
    outcomes distinguish a method that returned from one that is still inside
    one of its wait loops.  The libuvc primitives and the asyn parameter
    library are external collaborators: they are represented by a scripted
    hardware layer that counts acquired resources and records every call. *)

From Stdlib Require Import ZArith String Ascii List Bool Lia.
From stdpp Require Import base option gmap pretty.

Local Open Scope Z_scope.

(** ** Machine integers *)

Module Int32.

Definition modulus : Z := 2 ^ 32.
Definition max_signed : Z := 2 ^ 31 - 1.
Definition min_signed : Z := - 2 ^ 31.

(** Two's complement reduction of a mathematical integer to an [int]. *)
Definition wrap (z : Z) : Z := (z + 2 ^ 31) mod modulus - 2 ^ 31.

Definition in_range (z : Z) : Prop := min_signed <= z <= max_signed.

Definition add (a b : Z) : Z := wrap (a + b).

(** C division truncates towards zero; a zero divisor and the quotient
    [INT_MIN / -1] have no defined result. *)
Definition div (a b : Z) : option Z :=
  if b =? 0 then None
  else if (a =? min_signed) && (b =? -1) then None
  else Some (Z.quot a b).

End Int32.

(** ** Data model *)

(** Indices into the asyn parameter table.  They are assigned by the host
    framework and by the driver's header, so they are kept abstract. *)
Record ParamIndices : Type := mkParamIndices {
  ADAcquire : Z;
  ADStatus : Z;
  ADNumImages : Z;
  ADNumImagesCounter : Z;
  NDDataType : Z;
  ADUVC_OperatingMode : Z;
  ADUVC_Framerate : Z;
  ADUVC_SerialNumber : Z;
  ADUVC_FIRST_PARAM : Z
}.

(** [asynStatus] and [ADStatus_t] values used by the driver. *)
Definition asynSuccess : Z := 0.
Definition ADStatusIdle : Z := 0.

Inductive uvc_frame_format : Type :=
| UVC_FRAME_FORMAT_MJPEG
| UVC_FRAME_FORMAT_OTHER (code : Z).

(** The arguments of one [uvc_get_stream_ctrl_format_size] request. *)
Record StreamRequest : Type := mkStreamRequest {
  req_format : uvc_frame_format;
  req_width : Z;
  req_height : Z;
  req_fps : Z
}.

(** A raw frame as handed to the frame callback by the hardware layer. *)
Record uvc_frame : Type := mkFrame {
  frame_width : Z;
  frame_height : Z;
  frame_format : uvc_frame_format;
  frame_sequence : Z;
  frame_capture_time : Z;
  frame_data : list Z
}.

(** An image buffer as delivered to the consumer pipeline. *)
Record NDArray : Type := mkNDArray {
  nd_dataType : Z;
  nd_width : Z;
  nd_height : Z;
  nd_timeStamp : Z;
  nd_uniqueId : Z;
  nd_data : list Z
}.

Inductive UvcCall : Type :=
| CallInit
| CallFindDevice (serialNumber : Z)
| CallOpen
| CallGetStreamCtrl (req : StreamRequest)
| CallStartStreaming
| CallStopStreaming
| CallGetDeviceDescriptor
| CallFreeDeviceDescriptor
| CallClose
| CallUnrefDevice
| CallExit.

(** Everything the driver does that an observer outside it can see. *)
Inductive Event : Type :=
| EvSetParam (index value : Z)
| EvCallbacks
| EvUvc (call : UvcCall)
| EvUvcError (functionName : string) (status : Z)
| EvWriteError (status function value : Z)
| EvSleep
| EvLock
| EvExternalStop
| EvDisconnect.

(** Resources held in the hardware layer. *)
Record UvcState : Type := mkUvcState {
  contexts : nat;
  devices : nat;
  handles : nat;
  streaming : bool
}.

(** Return codes scripted for the hardware layer: a negative code is an
    error and acquires nothing. *)
Record UvcScript : Type := mkUvcScript {
  init_rc : Z;
  find_rc : Z -> Z;
  open_rc : Z;
  ctrl_rc : StreamRequest -> Z;
  start_rc : Z
}.

(** The driver object together with what surrounds it: the integer
    parameter table of the asyn port, the file-scope flag [moving] (the
    source declares it [static const int] and assigns to it; it is the
    mutable running flag shared by the command path and the timer), the
    [deviceStatus] member, the hardware layer, the depth of the port lock,
    the seconds slept so far, the image buffers handed to the consumer and
    the events recorded so far. *)
Record Driver : Type := mkDriver {
  params : gmap Z Z;
  moving : Z;
  deviceStatus : Z;
  uvc : UvcState;
  lockDepth : nat;
  clock : nat;
  delivered : list NDArray;
  trace : list Event
}.

Definition with_params (p : gmap Z Z) (d : Driver) : Driver :=
  mkDriver p (moving d) (deviceStatus d) (uvc d) (lockDepth d) (clock d)
           (delivered d) (trace d).
Definition with_moving (m : Z) (d : Driver) : Driver :=
  mkDriver (params d) m (deviceStatus d) (uvc d) (lockDepth d) (clock d)
           (delivered d) (trace d).
Definition with_deviceStatus (s : Z) (d : Driver) : Driver :=
  mkDriver (params d) (moving d) s (uvc d) (lockDepth d) (clock d)
           (delivered d) (trace d).
Definition with_uvc (u : UvcState) (d : Driver) : Driver :=
  mkDriver (params d) (moving d) (deviceStatus d) u (lockDepth d) (clock d)
           (delivered d) (trace d).
Definition with_lockDepth (n : nat) (d : Driver) : Driver :=
  mkDriver (params d) (moving d) (deviceStatus d) (uvc d) n (clock d)
           (delivered d) (trace d).
Definition with_clock (n : nat) (d : Driver) : Driver :=
  mkDriver (params d) (moving d) (deviceStatus d) (uvc d) (lockDepth d) n
           (delivered d) (trace d).
Definition emit (e : Event) (d : Driver) : Driver :=
  mkDriver (params d) (moving d) (deviceStatus d) (uvc d) (lockDepth d)
           (clock d) (delivered d) (trace d ++ e :: nil).

(** ** The driver monad *)

(** A method either returns, is still running when the iteration budget of
    its wait loops is used up, or hits an operation without a defined
    result.  Every outcome carries the driver state reached. *)
Inductive outcome (A : Type) : Type :=
| Returned (a : A) (d : Driver)
| StillRunning (d : Driver)
| Fault (d : Driver).
Arguments Returned {A} a d.
Arguments StillRunning {A} d.
Arguments Fault {A} d.

Definition state_of {A} (o : outcome A) : Driver :=
  match o with
  | Returned _ d => d
  | StillRunning d => d
  | Fault d => d
  end.

Definition M (A : Type) : Type := Driver -> outcome A.

Definition ret {A} (a : A) : M A := fun d => Returned a d.

Definition bind {A B} (m : M A) (k : A -> M B) : M B :=
  fun d =>
    match m d with
    | Returned a d' => k a d'
    | StillRunning d' => StillRunning d'
    | Fault d' => Fault d'
    end.

Definition fault {A} : M A := fun d => Fault d.
Definition gets {A} (f : Driver -> A) : M A := fun d => Returned (f d) d.
Definition modify (f : Driver -> Driver) : M unit := fun d => Returned tt (f d).

Declare Scope driver_scope.
Delimit Scope driver_scope with drv.
Notation "x <- c ;; k" := (bind c (fun x => k))
  (at level 100, c at next level, right associativity) : driver_scope.
Notation "c ;;; k" := (bind c (fun _ => k))
  (at level 100, right associativity) : driver_scope.
Local Open Scope driver_scope.

Definition when (b : bool) (m : M unit) : M unit := if b then m else ret tt.

(** ** The driver *)

Section ADUVC.

(** Parameter indices from the headers. *)
Variable ix : ParamIndices.
(** The scripted behaviour of the camera. *)
Variable hw : UvcScript.
(** [stop_request t] holds when another thread issues a stop command while
    this one sleeps through second [t]. *)
Variable stop_request : nat -> bool.
(** The base-class write handler; it only sees the parameter table. *)
Variable ADDriver_writeInt32 : Z -> Z -> gmap Z Z -> Z * gmap Z Z.

(** *** Parameter library *)

(** An index that was never written reads as 0. *)
Definition getIntegerParam (index : Z) : M Z :=
  gets (fun d => default 0 (params d !! index)).

Definition setIntegerParam (index value : Z) : M Z :=
  modify (fun d => emit (EvSetParam index value)
                        (with_params (<[index := value]> (params d)) d)) ;;;
  ret asynSuccess.

Definition callParamCallbacks : M unit := modify (emit EvCallbacks).

(** [disconnect] of the asyn port. *)
Definition disconnect : M unit := modify (emit EvDisconnect).

Definition lock : M unit :=
  modify (fun d => emit EvLock (with_lockDepth (S (lockDepth d)) d)).

(** *** Hardware layer *)

Definition acquire_context (u : UvcState) : UvcState :=
  mkUvcState (S (contexts u)) (devices u) (handles u) (streaming u).
Definition acquire_device (u : UvcState) : UvcState :=
  mkUvcState (contexts u) (S (devices u)) (handles u) (streaming u).
Definition acquire_handle (u : UvcState) : UvcState :=
  mkUvcState (contexts u) (devices u) (S (handles u)) (streaming u).
Definition release_context (u : UvcState) : UvcState :=
  mkUvcState (Nat.pred (contexts u)) (devices u) (handles u) (streaming u).
Definition release_device (u : UvcState) : UvcState :=
  mkUvcState (contexts u) (Nat.pred (devices u)) (handles u) (streaming u).
Definition release_handle (u : UvcState) : UvcState :=
  mkUvcState (contexts u) (devices u) (Nat.pred (handles u)) false.
Definition set_streaming (b : bool) (u : UvcState) : UvcState :=
  mkUvcState (contexts u) (devices u) (handles u) b.

(** One call into libuvc: it is recorded, answers with the scripted code
    and changes the held resources only when that code is not an error. *)
Definition uvc_call (c : UvcCall) (rc : Z) (f : UvcState -> UvcState) : M Z :=
  fun d =>
    let u := if rc <? 0 then uvc d else f (uvc d) in
    Returned rc (emit (EvUvc c) (with_uvc u d)).

Definition uvc_init : M Z := uvc_call CallInit (init_rc hw) acquire_context.
Definition uvc_find_device (serialNumber : Z) : M Z :=
  uvc_call (CallFindDevice serialNumber) (find_rc hw serialNumber)
           acquire_device.
Definition uvc_open : M Z := uvc_call CallOpen (open_rc hw) acquire_handle.
Definition uvc_get_stream_ctrl_format_size (fmt : uvc_frame_format)
    (width height fps : Z) : M Z :=
  let req := mkStreamRequest fmt width height fps in
  uvc_call (CallGetStreamCtrl req) (ctrl_rc hw req) (fun u => u).
Definition uvc_start_streaming : M Z :=
  uvc_call CallStartStreaming (start_rc hw) (set_streaming true).
Definition uvc_stop_streaming : M unit :=
  uvc_call CallStopStreaming 0 (set_streaming false) ;;; ret tt.
(** The descriptor is not among the counted resources: obtaining and
    freeing it are recorded as calls only. *)
Definition uvc_get_device_descriptor : M unit :=
  uvc_call CallGetDeviceDescriptor 0 (fun u => u) ;;; ret tt.
Definition uvc_free_device_descriptor : M unit :=
  uvc_call CallFreeDeviceDescriptor 0 (fun u => u) ;;; ret tt.
Definition uvc_close : M unit :=
  uvc_call CallClose 0 release_handle ;;; ret tt.
Definition uvc_unref_device : M unit :=
  uvc_call CallUnrefDevice 0 release_device ;;; ret tt.
Definition uvc_exit : M unit :=
  uvc_call CallExit 0 release_context ;;; ret tt.

(** *** Methods of the driver, in the order of the source file

    Of the diagnostics only the error reports are recorded; the
    [ASYN_TRACEIO_DRIVER] messages are left out. *)

Definition reportUVCError (status : Z) (functionName : string) : M unit :=
  modify (emit (EvUvcError functionName status)).

Definition set_deviceStatus (s : Z) : M unit := modify (with_deviceStatus s).
Definition get_deviceStatus : M Z := gets deviceStatus.
Definition set_moving (m : Z) : M unit := modify (with_moving m).

Definition connectToDeviceUVC (serialNumber : Z) : M bool :=
  let functionName := "connectToDeviceUVC"%string in
  (rc <- uvc_init ;; set_deviceStatus rc) ;;;
  ds <- get_deviceStatus ;;
  if ds <? 0 then reportUVCError ds functionName ;;; ret false
  else
    (rc <- uvc_find_device serialNumber ;; set_deviceStatus rc) ;;;
    ds <- get_deviceStatus ;;
    if ds <? 0 then reportUVCError ds functionName ;;; ret false
    else
      (rc <- uvc_open ;; set_deviceStatus rc) ;;;
      ds <- get_deviceStatus ;;
      if ds <? 0 then reportUVCError ds functionName ;;; ret false
      else ret true.

Definition acquireStop : M unit :=
  set_moving 0 ;;;
  uvc_stop_streaming ;;;
  setIntegerParam (ADStatus ix) ADStatusIdle ;;;
  setIntegerParam (ADAcquire ix) 0 ;;;
  callParamCallbacks.

(** The body of the frame callback as the source has it: it takes the
    driver lock and reads the configured data type; it ends there. *)
Definition newFrameCallback (frame : uvc_frame) : M unit :=
  lock ;;;
  dataType <- getIntegerParam (NDDataType ix) ;;
  let ndDataType := dataType in
  ret tt.

(** [sleep(1)]: one second passes, during which a scheduled external stop
    command runs the stop procedure on the shared driver. *)
Definition sleep1 : M unit :=
  t <- gets clock ;;
  modify (emit EvSleep) ;;;
  when (stop_request t) (modify (emit EvExternalStop) ;;; acquireStop) ;;;
  modify (with_clock (S t)).

(** [while(moving == 1 && second_counter != seconds)]; [fuel] bounds the
    number of iterations that are followed. *)
Fixpoint snapshot_loop (fuel : nat) (seconds second_counter : Z) : M unit :=
  fun d =>
    if (moving d =? 1) && negb (second_counter =? seconds) then
      match fuel with
      | O => StillRunning d
      | S fuel' =>
          (sleep1 ;;;
           snapshot_loop fuel' seconds (Int32.add second_counter 1)) d
      end
    else Returned tt d.

(** [while(moving == 1) sleep(1);] *)
Fixpoint continuous_loop (fuel : nat) : M unit :=
  fun d =>
    if moving d =? 1 then
      match fuel with
      | O => StillRunning d
      | S fuel' => (sleep1 ;;; continuous_loop fuel') d
      end
    else Returned tt d.

(** The session length computed in snapshot mode. *)
Definition snapshot_seconds (numFrames framerate : Z) : option Z :=
  match Int32.div numFrames framerate with
  | Some seconds => Some (Int32.add seconds 1)
  | None => None
  end.

(** The source spells the second comparison [operting mode == 1] and
    declares the local [framrate]; they are read as [operatingMode == 1] and
    [framerate]. *)
Definition imageHandlerThread (fuel : nat) : M unit :=
  operatingMode <- getIntegerParam (ADUVC_OperatingMode ix) ;;
  framerate <- getIntegerParam (ADUVC_Framerate ix) ;;
  numFrames <- getIntegerParam (ADNumImages ix) ;;
  (if operatingMode =? 0 then sleep1
   else if operatingMode =? 1 then
     match snapshot_seconds numFrames framerate with
     | Some seconds => snapshot_loop fuel seconds 0
     | None => fault
     end
   else if operatingMode =? 2 then continuous_loop fuel
   else ret tt) ;;;
  set_moving 0.

(** [acquireStart] answers [Some rc] where the source returns a status and
    [None] where control leaves the function without a return statement. *)
Definition acquireStart (fuel : nat) : M (option Z) :=
  (rc <- uvc_get_stream_ctrl_format_size UVC_FRAME_FORMAT_MJPEG 640 480 30 ;;
   set_deviceStatus rc) ;;;
  ds <- get_deviceStatus ;;
  if ds <? 0 then
    setIntegerParam (ADAcquire ix) 0 ;;;
    callParamCallbacks ;;;
    ds <- get_deviceStatus ;;
    ret (Some ds)
  else
    setIntegerParam (ADNumImagesCounter ix) 0 ;;;
    callParamCallbacks ;;;
    (rc <- uvc_start_streaming ;; set_deviceStatus rc) ;;;
    ds <- get_deviceStatus ;;
    if ds <? 0 then
      setIntegerParam (ADAcquire ix) 0 ;;;
      callParamCallbacks ;;;
      ds <- get_deviceStatus ;;
      ret (Some ds)
    else
      set_moving 1 ;;;
      imageHandlerThread fuel ;;;
      ret None.

(** [junk] is the value read where the source uses the result of a call
    that produced none.  The local [status] is only tested for the error
    message: the source has no return statement, so, as for [acquireStart],
    the answer is [None]. *)
Definition writeInt32 (fuel : nat) (junk : Z) (function value : Z)
    : M (option Z) :=
  let functionName := "writeInt32"%string in
  acquiring <- getIntegerParam (ADAcquire ix) ;;
  status <- setIntegerParam function value ;;
  status <-
    (if function =? ADAcquire ix then
       when (negb (value =? 0) && (acquiring =? 0))
            (r <- acquireStart fuel ;;
             set_deviceStatus (default junk r) ;;;
             ds <- get_deviceStatus ;;
             when (ds <? 0) (reportUVCError ds functionName)) ;;;
       when ((value =? 0) && negb (acquiring =? 0))
            (acquireStop ;;;
             set_deviceStatus junk ;;;
             ds <- get_deviceStatus ;;
             when (ds <? 0) (reportUVCError ds functionName)) ;;;
       ret status
     else if function <? ADUVC_FIRST_PARAM ix then
       fun d =>
         let '(s, p) := ADDriver_writeInt32 function value (params d) in
         Returned s (with_params p d)
     else ret status) ;;
  callParamCallbacks ;;;
  when (negb (status =? 0))
       (modify (emit (EvWriteError status function value))) ;;;
  ret None.

(** The destructor: the descriptor is freed, the handle closed, the device
    reference dropped and the context left, in that order, and the port is
    disconnected. *)
Definition destroy : M unit :=
  uvc_free_device_descriptor ;;;
  uvc_close ;;;
  uvc_unref_device ;;;
  uvc_exit ;;;
  disconnect.

End ADUVC.

(** ** A simulated camera for concrete runs *)

Module Sim.

Definition indices : ParamIndices :=
  mkParamIndices 10 11 12 13 14 102 103 104 100.

Definition no_stop : nat -> bool := fun _ => false.
Definition stop_at (t : nat) : nat -> bool := fun k => Nat.eqb k t.

(** The base class stores the value again and reports success. *)
Definition base : Z -> Z -> gmap Z Z -> Z * gmap Z Z :=
  fun function value p => (asynSuccess, <[function := value]> p).

(** A camera that accepts every request. *)
Definition camera_ok : UvcScript :=
  mkUvcScript 0 (fun _ => 0) 0 (fun _ => 0) 0.
(** No device with the requested serial number is attached. *)
Definition camera_absent : UvcScript :=
  mkUvcScript 0 (fun _ => -4) 0 (fun _ => 0) 0.
(** The device is found but another process holds it. *)
Definition camera_busy : UvcScript :=
  mkUvcScript 0 (fun _ => 0) (-6) (fun _ => 0) 0.
(** A camera that rejects every stream format. *)
Definition camera_no_format : UvcScript :=
  mkUvcScript 0 (fun _ => 0) 0 (fun _ => -51) 0.
(** A camera that only streams 640x480 MJPEG at 30 frames per second. *)
Definition camera_30fps : UvcScript :=
  mkUvcScript 0 (fun _ => 0) 0
    (fun r => match req_format r with
              | UVC_FRAME_FORMAT_MJPEG =>
                  if (req_width r =? 640) && (req_height r =? 480)
                     && (req_fps r =? 30) then 0 else -51
              | UVC_FRAME_FORMAT_OTHER _ => -51
              end) 0.

Definition no_resources : UvcState := mkUvcState 0 0 0 false.
Definition connected : UvcState := mkUvcState 1 1 1 false.
Definition connected_streaming : UvcState := mkUvcState 1 1 1 true.

(** A driver before any connection attempt. *)
Definition fresh : Driver :=
  mkDriver ∅ 0 0 no_resources 0 0 nil nil.

(** A connected, idle driver configured with [mode], [framerate] and
    [numFrames]. *)
Definition idle (mode framerate numFrames : Z) : Driver :=
  mkDriver (<[ADAcquire indices := 0]>
            (<[ADUVC_OperatingMode indices := mode]>
             (<[ADUVC_Framerate indices := framerate]>
              (<[ADNumImages indices := numFrames]> ∅))))
           0 0 connected 0 0 nil nil.

(** A driver whose acquire parameter is set while the camera streams. *)
Definition acquiring (mode framerate numFrames : Z) : Driver :=
  mkDriver (<[ADAcquire indices := 1]>
            (<[ADUVC_OperatingMode indices := mode]>
             (<[ADUVC_Framerate indices := framerate]>
              (<[ADNumImages indices := numFrames]> ∅))))
           0 0 connected_streaming 0 0 nil nil.

End Sim.

(** ** Observations on outcomes *)

Definition answer {A} (o : outcome A) : option A :=
  match o with
  | Returned a _ => Some a
  | _ => None
  end.

Definition is_running {A} (o : outcome A) : bool :=
  match o with
  | StillRunning _ => true
  | _ => false
  end.

(** The libuvc calls among the events of a trace. *)
Definition uvc_calls (t : list Event) : list UvcCall :=
  flat_map (fun e => match e with EvUvc c => c :: nil | _ => nil end) t.

Definition is_error_event (e : Event) : bool :=
  match e with
  | EvUvcError _ _ | EvWriteError _ _ _ => true
  | _ => false
  end.

Definition no_resource_acquired (u : UvcState) : Prop :=
  contexts u = 0%nat /\ devices u = 0%nat /\ handles u = 0%nat.

(** The state after [n] seconds of sleep during which nothing else runs. *)
Fixpoint idle_sleeps (n : nat) (d : Driver) : Driver :=
  match n with
  | O => d
  | S n' => idle_sleeps n' (with_clock (S (clock d)) (emit EvSleep d))
  end.

(** Session length of snapshot mode in the words of the design document:
    the frame count over the frame rate, rounded up, plus one second. *)
Definition ceil_div (n r : Z) : Z := - ((- n) / r).
Definition spec_snapshot_duration (n r : Z) : Z := ceil_div n r + 1.

(** Seconds [clock d], ..., [clock d + n - 1] carry no stop request. *)
Definition quiet_for (stop_request : nat -> bool) (n : nat) (d : Driver) : Prop :=
  forall k, (k < n)%nat -> stop_request (clock d + k)%nat = false.

(** The request that [acquireStart] negotiates. *)
Definition negotiated : StreamRequest :=
  mkStreamRequest UVC_FRAME_FORMAT_MJPEG 640 480 30.

(** The state left by a write to the acquire parameter whose action is
    skipped: the value is stored and the parameter callbacks run. *)
Definition stored_only (ix : ParamIndices) (value : Z) (d : Driver) : Driver :=
  emit EvCallbacks
    (emit (EvSetParam (ADAcquire ix) value)
       (with_params (<[ADAcquire ix := value]> (params d)) d)).

(** The driver after the stop procedure. *)
Definition stopped_state (ix : ParamIndices) (d : Driver) : Driver :=
  emit EvCallbacks
    (emit (EvSetParam (ADAcquire ix) 0)
       (with_params
          (<[ADAcquire ix := 0]> (<[ADStatus ix := ADStatusIdle]> (params d)))
          (emit (EvSetParam (ADStatus ix) ADStatusIdle)
             (emit (EvUvc CallStopStreaming)
                (with_uvc (set_streaming false (uvc d)) (with_moving 0 d)))))).

(** The driver at the moment [acquireStart] enters the timer, after a
    successful negotiation and stream start. *)
Definition timer_entry (ix : ParamIndices) (hw : UvcScript) (d : Driver) : Driver :=
  with_moving 1
    (with_deviceStatus (start_rc hw)
       (emit (EvUvc CallStartStreaming)
          (with_uvc (set_streaming true (uvc d))
             (emit EvCallbacks
                (emit (EvSetParam (ADNumImagesCounter ix) 0)
                   (with_params (<[ADNumImagesCounter ix := 0]> (params d))
                      (with_deviceStatus (ctrl_rc hw negotiated)
                         (emit (EvUvc (CallGetStreamCtrl negotiated)) d)))))))).

(** What separates the expiry of the timer from a manual stop, both taken
    from the same streaming session in operating mode [mode]. *)
Definition expiry_differs_from_stop (mode : Z) : Prop :=
  let session := with_moving 1 (Sim.acquiring mode 10 30) in
  let expired := imageHandlerThread Sim.indices Sim.no_stop 10 session in
  let stopped := acquireStop Sim.indices session in
  answer expired = Some tt /\
  answer stopped = Some tt /\
  moving (state_of expired) = 0 /\
  moving (state_of stopped) = 0 /\
  streaming (uvc (state_of expired)) = true /\
  streaming (uvc (state_of stopped)) = false /\
  params (state_of expired) !! ADAcquire Sim.indices = Some 1 /\
  params (state_of stopped) !! ADAcquire Sim.indices = Some 0 /\
  params (state_of expired) !! ADStatus Sim.indices = None /\
  params (state_of stopped) !! ADStatus Sim.indices = Some ADStatusIdle /\
  uvc_calls (trace (state_of expired)) = nil /\
  uvc_calls (trace (state_of stopped)) = CallStopStreaming :: nil.

(** [grows m]: whatever [m] does, the events recorded before it stay in
    place; [m] can only append. *)
Definition extends (d d' : Driver) : Prop :=
  exists l, trace d' = trace d ++ l.

Definition grows {A} (m : M A) : Prop :=
  forall d, extends d (state_of (m d)).

(** ** Device identity and the life cycle of the driver object *)

(** An argument of a [printf]-style call. *)
Inductive FormatArg : Type :=
| ArgInt (z : Z)
| ArgStr (s : string).

(** [sprintf] for the two directives the driver uses: [%d] prints the next
    argument in decimal, [%s] copies it; arguments left over when the format
    ends are ignored, as in C, and a directive without a fitting argument
    prints nothing. *)
Fixpoint sprintf (fmt : string) (args : list FormatArg) : string :=
  match fmt with
  | EmptyString => EmptyString
  | String c rest =>
      if Ascii.eqb c "%" then
        match rest with
        | EmptyString => String c EmptyString
        | String k rest' =>
            if Ascii.eqb k "d" then
              match args with
              | ArgInt z :: args' => String.append (pretty z) (sprintf rest' args')
              | _ :: args' => sprintf rest' args'
              | nil => sprintf rest' nil
              end
            else if Ascii.eqb k "s" then
              match args with
              | ArgStr t :: args' => String.append t (sprintf rest' args')
              | _ :: args' => sprintf rest' args'
              | nil => sprintf rest' nil
              end
            else String c (sprintf rest args)
        end
      else String c (sprintf rest args)
  end.

Definition driverName : string := "ADUVC".

(** The fields of the libuvc device descriptor that the driver reads; the
    serial number is the integer the driver stores as a parameter. *)
Record uvc_device_descriptor : Type := mkDescriptor {
  idVendor : Z;
  idProduct : Z;
  serialNumber : Z;
  manufacturer : string
}.

(** Indices of the two string parameters of the base class. *)
Record StringIndices : Type := mkStringIndices {
  ADManufacturer : Z;
  ADModel : Z
}.

(** The asyn port as a whole: the driver, the string half of the parameter
    table and the error messages printed outside [reportUVCError]. *)
Record Port : Type := mkPort {
  drv : Driver;
  stringParams : gmap Z string;
  console : list string
}.

(** A driver method run on the driver of the port. *)
Definition on_driver {A} (m : M A) (p : Port) : Port :=
  mkPort (state_of (m (drv p))) (stringParams p) (console p).

Definition setStringParam (index : Z) (value : string) (p : Port) : Port :=
  mkPort (drv p) (<[index := value]> (stringParams p)) (console p).

Definition print_error (message : string) (p : Port) : Port :=
  mkPort (drv p) (stringParams p) (console p ++ message :: nil).

Section Lifecycle.

Variable ix : ParamIndices.
Variable sx : StringIndices.
Variable hw : UvcScript.
(** The descriptor that [uvc_get_device_descriptor] yields. *)
Variable info : uvc_device_descriptor.

Definition getDeviceInformation (p : Port) : Port :=
  let p := on_driver uvc_get_device_descriptor p in
  let p := setStringParam (ADManufacturer sx) (manufacturer info) p in
  let p := on_driver (setIntegerParam (ADUVC_SerialNumber ix)
                        (serialNumber info)) p in
  let modelName :=
    sprintf "UVC Vendor: %d, UVC Product: "
            (ArgInt (idVendor info) :: ArgInt (idProduct info) :: nil) in
  setStringParam (ADModel sx) modelName p.

(** The constructor after the base-class constructor has run: [createParam]
    binds the four driver parameters to their indices, which are given
    here, then the frame rate is stored and the camera connected. *)
Definition construct (serial framerate : Z) (p : Port) : Port :=
  let functionName := "ADUVC"%string in
  let p := on_driver (setIntegerParam (ADUVC_Framerate ix) framerate) p in
  let o := connectToDeviceUVC hw serial (drv p) in
  let p := on_driver (fun _ => o) p in
  match answer o with
  | Some true => getDeviceInformation p
  | _ =>
      print_error
        (sprintf (String.append "%s::%s Connection failed, abort"
                                (String "010" EmptyString))
                 (ArgStr driverName :: ArgStr functionName :: nil)) p
  end.

(** [ADUVCConfig]: builds the driver object and answers success. *)
Definition ADUVCConfig (serial framerate : Z) (p : Port) : Z * Port :=
  (asynSuccess, construct serial framerate p).

(** [exitCallbackC]: deletes the driver object. *)
Definition exitCallbackC (p : Port) : Port := on_driver destroy p.

End Lifecycle.

(** The frame callback run once for each frame of a list, in order. *)
Fixpoint deliver_frames (ix : ParamIndices) (frames : list uvc_frame)
    (d : Driver) : Driver :=
  match frames with
  | nil => d
  | f :: rest => deliver_frames ix rest (state_of (newFrameCallback ix f d))
  end.

(** [camera_untouched d d']: going from [d] to [d'] changed neither the
    parameter table, the hardware state and the device status, nor the list
    of hardware calls made so far. *)
Definition camera_untouched (d d' : Driver) : Prop :=
  params d' = params d /\ uvc d' = uvc d /\
  deviceStatus d' = deviceStatus d /\
  uvc_calls (trace d') = uvc_calls (trace d).

(** * Properties *)

(** ** Connection *)

Ltac run_monad :=
  unfold bind, ret, gets, modify, when, fault; simpl.

(** C1 (as amended): when discovery or the exclusive open fails after the
    earlier steps succeeded, [connectToDeviceUVC] answers [false] and makes
    no release call: the context, and the device reference when discovery
    succeeded, are still held when it returns. *)
Theorem connect_failure_keeps_resources (hw : UvcScript) (serial : Z) (d : Driver) :
  0 <= init_rc hw ->
  (find_rc hw serial < 0 ->
   let o := connectToDeviceUVC hw serial d in
   answer o = Some false /\
   uvc (state_of o) = acquire_context (uvc d) /\
   trace (state_of o) =
     trace d ++ EvUvc CallInit :: EvUvc (CallFindDevice serial)
             :: EvUvcError "connectToDeviceUVC"%string (find_rc hw serial) :: nil) /\
  (0 <= find_rc hw serial -> open_rc hw < 0 ->
   let o := connectToDeviceUVC hw serial d in
   answer o = Some false /\
   uvc (state_of o) = acquire_device (acquire_context (uvc d)) /\
   trace (state_of o) =
     trace d ++ EvUvc CallInit :: EvUvc (CallFindDevice serial)
             :: EvUvc CallOpen
             :: EvUvcError "connectToDeviceUVC"%string (open_rc hw) :: nil).
Proof.
  intros Hinit. split.
  - intros Hfind. cbv zeta.
    unfold connectToDeviceUVC, uvc_init, uvc_find_device, uvc_call.
    run_monad.
    destruct (Z.ltb_spec (init_rc hw) 0) as [? | _]; [lia |]. simpl.
    destruct (Z.ltb_spec (find_rc hw serial) 0) as [_ | ?]; [| lia].
    simpl. repeat split. rewrite <- !app_assoc. reflexivity.
  - intros Hfind Hopen. cbv zeta.
    unfold connectToDeviceUVC, uvc_init, uvc_find_device, uvc_open, uvc_call.
    run_monad.
    destruct (Z.ltb_spec (init_rc hw) 0) as [? | _]; [lia |]. simpl.
    destruct (Z.ltb_spec (find_rc hw serial) 0) as [? | _]; [lia |]. simpl.
    destruct (Z.ltb_spec (open_rc hw) 0) as [_ | ?]; [| lia].
    simpl. repeat split. rewrite <- !app_assoc. reflexivity.
Qed.

Lemma connect_failure_keeps_resources_witness :
  let o := connectToDeviceUVC Sim.camera_busy 7 Sim.fresh in
  answer o = Some false /\
  uvc (state_of o) = acquire_device (acquire_context (uvc Sim.fresh)) /\
  trace (state_of o) =
    trace Sim.fresh ++ EvUvc CallInit :: EvUvc (CallFindDevice 7)
      :: EvUvc CallOpen :: EvUvcError "connectToDeviceUVC"%string (-6) :: nil.
Proof.
  apply (connect_failure_keeps_resources Sim.camera_busy 7 Sim.fresh);
    simpl; lia.
Defined.

(** C1 as stated fails: with no matching device attached the call answers
    [false] while the context it initialised is still acquired, and no
    release primitive was called. *)
Lemma connect_failure_leaks_context :
  let o := connectToDeviceUVC Sim.camera_absent 7 Sim.fresh in
  answer o = Some false /\
  ~ no_resource_acquired (uvc (state_of o)) /\
  uvc_calls (trace (state_of o)) = CallInit :: CallFindDevice 7 :: nil.
Proof.
  vm_compute. split; [reflexivity |]. split; [| reflexivity].
  intros [H _]. discriminate H.
Qed.

(** The resources of a completed connection are given back by the
    destructor. *)
Lemma destroy_releases_connection (hw : UvcScript) (serial : Z) (d : Driver) :
  0 <= init_rc hw -> 0 <= find_rc hw serial -> 0 <= open_rc hw ->
  let c := connectToDeviceUVC hw serial d in
  let u := uvc (state_of (destroy (state_of c))) in
  answer c = Some true /\
  contexts u = contexts (uvc d) /\ devices u = devices (uvc d) /\
  handles u = handles (uvc d).
Proof.
  intros Hi Hf Ho. cbv zeta.
  unfold connectToDeviceUVC, destroy, uvc_init, uvc_find_device, uvc_open,
    uvc_close, uvc_unref_device, uvc_exit, uvc_call.
  run_monad.
  destruct (Z.ltb_spec (init_rc hw) 0) as [? | _]; [lia |]. simpl.
  destruct (Z.ltb_spec (find_rc hw serial) 0) as [? | _]; [lia |]. simpl.
  destruct (Z.ltb_spec (open_rc hw) 0) as [? | _]; [lia |]. simpl.
  repeat split.
Qed.

(** ** The acquisition timer *)

Section Timer.

Variable ix : ParamIndices.
Variable stop_request : nat -> bool.

Lemma sleep1_quiet d :
  stop_request (clock d) = false ->
  sleep1 ix stop_request d
  = Returned tt (with_clock (S (clock d)) (emit EvSleep d)).
Proof.
  intros Hq. unfold sleep1. run_monad. rewrite Hq. reflexivity.
Qed.

Lemma idle_sleeps_clock n d : clock (idle_sleeps n d) = (clock d + n)%nat.
Proof.
  revert d. induction n as [| n IH]; intros d; simpl.
  - lia.
  - rewrite IH. simpl. lia.
Qed.

Lemma idle_sleeps_moving n d : moving (idle_sleeps n d) = moving d.
Proof.
  revert d. induction n as [| n IH]; intros d; simpl; [| rewrite IH]; reflexivity.
Qed.

Lemma idle_sleeps_params n d : params (idle_sleeps n d) = params d.
Proof.
  revert d. induction n as [| n IH]; intros d; simpl; [| rewrite IH]; reflexivity.
Qed.

Lemma idle_sleeps_uvc n d : uvc (idle_sleeps n d) = uvc d.
Proof.
  revert d. induction n as [| n IH]; intros d; simpl; [| rewrite IH]; reflexivity.
Qed.

Lemma idle_sleeps_trace n d :
  trace (idle_sleeps n d) = trace d ++ repeat EvSleep n.
Proof.
  revert d. induction n as [| n IH]; intros d; simpl.
  - now rewrite app_nil_r.
  - rewrite IH. simpl. now rewrite <- app_assoc.
Qed.

Lemma quiet_for_step n d :
  quiet_for stop_request (S n) d ->
  stop_request (clock d) = false /\
  quiet_for stop_request n (with_clock (S (clock d)) (emit EvSleep d)).
Proof.
  intros Hq. split.
  - specialize (Hq 0%nat). rewrite Nat.add_0_r in Hq. apply Hq. lia.
  - intros k Hk. simpl. specialize (Hq (S k)).
    rewrite Nat.add_succ_r in Hq. apply Hq. lia.
Qed.

(** With the flag up and nobody stopping, the continuous loop is still
    running after any number of iterations. *)
Lemma continuous_loop_quiet fuel d :
  moving d = 1 ->
  quiet_for stop_request fuel d ->
  continuous_loop ix stop_request fuel d = StillRunning (idle_sleeps fuel d).
Proof.
  revert d. induction fuel as [| fuel IH]; intros d Hm Hq; simpl.
  - rewrite Hm. reflexivity.
  - rewrite Hm. simpl. apply quiet_for_step in Hq as [Hq0 Hq].
    unfold bind. rewrite (sleep1_quiet d Hq0).
    apply IH; [exact Hm | exact Hq].
Qed.

(** The snapshot loop runs until the counter meets the computed length. *)
Lemma snapshot_loop_quiet (n : nat) :
  forall fuel seconds counter d,
    moving d = 1 ->
    0 <= counter -> seconds <= Int32.max_signed ->
    seconds - counter = Z.of_nat n ->
    (n <= fuel)%nat ->
    quiet_for stop_request n d ->
    snapshot_loop ix stop_request fuel seconds counter d
    = Returned tt (idle_sleeps n d).
Proof.
  induction n as [| n IH]; intros fuel seconds counter d Hm Hc Hs Hn Hf Hq.
  - assert (counter = seconds) as -> by lia.
    destruct fuel; simpl; rewrite Hm; simpl; rewrite Z.eqb_refl; reflexivity.
  - destruct fuel as [| fuel]; [lia |]. simpl.
    rewrite Hm. simpl.
    destruct (Z.eqb_spec counter seconds) as [-> | _]; [lia |]. simpl.
    apply quiet_for_step in Hq as [Hq0 Hq].
    unfold bind. rewrite (sleep1_quiet d Hq0).
    assert (Int32.add counter 1 = counter + 1) as ->.
    { unfold Int32.add, Int32.wrap, Int32.modulus, Int32.max_signed in *.
      rewrite Z.mod_small; lia. }
    apply IH; try assumption; simpl; lia.
Qed.

End Timer.

Lemma snapshot_seconds_value (n r : Z) :
  0 < n <= Int32.max_signed -> 0 < r -> n / r < Int32.max_signed ->
  snapshot_seconds n r = Some (n / r + 1).
Proof.
  intros Hn Hr Hq. unfold snapshot_seconds, Int32.div.
  destruct (Z.eqb_spec r 0) as [-> | _]; [lia |].
  destruct (Z.eqb_spec r (-1)) as [-> | _]; [lia |].
  rewrite andb_false_r. rewrite Z.quot_div_nonneg by lia.
  f_equal. unfold Int32.add, Int32.wrap, Int32.modulus.
  assert (0 <= n / r) by (apply Z.div_pos; lia).
  unfold Int32.max_signed in Hq. rewrite Z.mod_small; lia.
Qed.

Lemma ceil_div_exact (n r : Z) :
  0 < r -> n mod r = 0 -> ceil_div n r = n / r.
Proof.
  intros Hr Hm. unfold ceil_div.
  rewrite (Z.div_opp_l_z n r) by (assumption || lia). lia.
Qed.

Lemma ceil_div_inexact (n r : Z) :
  0 < r -> n mod r <> 0 -> ceil_div n r = n / r + 1.
Proof.
  intros Hr Hm. unfold ceil_div.
  rewrite (Z.div_opp_l_nz n r) by (assumption || lia). lia.
Qed.

(** C2 (as amended): for a frame count [n > 0] and a frame rate [r > 0]
    whose quotient fits an [int], the session length computed in snapshot
    mode is the truncated quotient plus one, [n / r + 1] seconds.  It is
    more than [n / r] seconds; it equals [ceil(n / r) + 1] exactly when [r]
    divides [n] and is one second shorter otherwise.  With no external stop
    the timer sleeps for exactly that many seconds and then clears the
    running flag. *)
Theorem snapshot_duration_truncates
    (ix : ParamIndices) (stop_request : nat -> bool)
    (n r : Z) (fuel : nat) (d : Driver) :
  0 < n <= Int32.max_signed -> 0 < r -> n / r < Int32.max_signed ->
  snapshot_seconds n r = Some (n / r + 1) /\
  n < r * (n / r + 1) /\
  (n mod r = 0 -> n / r + 1 = spec_snapshot_duration n r) /\
  (n mod r <> 0 -> n / r + 1 = spec_snapshot_duration n r - 1) /\
  (params d !! ADUVC_OperatingMode ix = Some 1 ->
   params d !! ADUVC_Framerate ix = Some r ->
   params d !! ADNumImages ix = Some n ->
   moving d = 1 ->
   quiet_for stop_request (Z.to_nat (n / r + 1)) d ->
   (Z.to_nat (n / r + 1) <= fuel)%nat ->
   imageHandlerThread ix stop_request fuel d
   = Returned tt (with_moving 0 (idle_sleeps (Z.to_nat (n / r + 1)) d))).
Proof.
  intros Hn Hr Hq.
  assert (0 <= n / r) as Hpos by (apply Z.div_pos; lia).
  split; [now apply snapshot_seconds_value |].
  split.
  { pose proof (Z.mod_pos_bound n r Hr) as Hb.
    pose proof (Z.div_mod n r ltac:(lia)) as Hd. nia. }
  split.
  { intros Hm. unfold spec_snapshot_duration.
    rewrite ceil_div_exact by assumption. reflexivity. }
  split.
  { intros Hm. unfold spec_snapshot_duration.
    rewrite ceil_div_inexact by assumption. lia. }
  intros Hmode Hrate Hcount Hmov Hquiet Hfuel.
  unfold imageHandlerThread, getIntegerParam. run_monad.
  rewrite Hmode, Hrate, Hcount. simpl.
  rewrite snapshot_seconds_value by assumption.
  rewrite (snapshot_loop_quiet ix stop_request (Z.to_nat (n / r + 1)));
    try assumption; try lia.
  reflexivity.
Qed.

Lemma snapshot_duration_truncates_witness :
  snapshot_seconds 30 10 = Some 4 /\
  imageHandlerThread Sim.indices Sim.no_stop 4
    (with_moving 1 (Sim.acquiring 1 10 30))
  = Returned tt
      (with_moving 0 (idle_sleeps 4 (with_moving 1 (Sim.acquiring 1 10 30)))).
Proof.
  pose proof (snapshot_duration_truncates Sim.indices Sim.no_stop 30 10 4
                (with_moving 1 (Sim.acquiring 1 10 30))
                ltac:(unfold Int32.max_signed; lia) ltac:(lia)
                ltac:(vm_compute; reflexivity))
    as (Hs & _ & _ & _ & Hrun).
  split; [exact Hs |].
  apply Hrun; try reflexivity.
  intros k _. reflexivity.
Defined.

(** C2 as stated fails when the rate does not divide the count: for 25
    frames at 10 frames per second the timer computes 3 seconds, while
    [ceil(25 / 10) + 1] is 4. *)
Lemma snapshot_duration_not_ceiling :
  snapshot_seconds 25 10 = Some 3 /\
  spec_snapshot_duration 25 10 = 4 /\
  snapshot_seconds 25 10 <> Some (spec_snapshot_duration 25 10).
Proof.
  split; [reflexivity |]. split; [reflexivity |]. vm_compute. discriminate.
Qed.

(** ** Start and stop commands *)

Lemma stored_only_frame ix value d :
  let d' := stored_only ix value d in
  moving d' = moving d /\ deviceStatus d' = deviceStatus d /\
  uvc d' = uvc d /\ clock d' = clock d /\ delivered d' = delivered d /\
  trace d' = trace d ++ EvSetParam (ADAcquire ix) value :: EvCallbacks :: nil.
Proof.
  simpl. repeat split. now rewrite <- app_assoc.
Qed.

Lemma stored_only_same_value ix value d :
  params d !! ADAcquire ix = Some value ->
  params (stored_only ix value d) = params d.
Proof.
  intros H. simpl. now apply insert_id.
Qed.

Section Commands.

Variable ix : ParamIndices.
Variable hw : UvcScript.
Variable stop_request : nat -> bool.
Variable base : Z -> Z -> gmap Z Z -> Z * gmap Z Z.

Lemma start_while_acquiring fuel junk value d :
  value <> 0 ->
  default 0 (params d !! ADAcquire ix) <> 0 ->
  writeInt32 ix hw stop_request base fuel junk (ADAcquire ix) value d
  = Returned None (stored_only ix value d).
Proof.
  intros Hv Ha. unfold writeInt32, getIntegerParam, setIntegerParam,
    callParamCallbacks. run_monad.
  rewrite Z.eqb_refl.
  destruct (Z.eqb_spec value 0) as [? | _]; [contradiction |].
  destruct (Z.eqb_spec (default 0 (params d !! ADAcquire ix)) 0)
    as [? | _]; [contradiction |].
  reflexivity.
Qed.

Lemma stop_while_idle fuel junk d :
  default 0 (params d !! ADAcquire ix) = 0 ->
  writeInt32 ix hw stop_request base fuel junk (ADAcquire ix) 0 d
  = Returned None (stored_only ix 0 d).
Proof.
  intros Ha. unfold writeInt32, getIntegerParam, setIntegerParam,
    callParamCallbacks. run_monad.
  rewrite Z.eqb_refl, Ha. reflexivity.
Qed.

End Commands.

(** C4 (as amended): a start command (a non-zero write to the acquire
    parameter, in particular a write of 1) that arrives while the acquire
    parameter is already non-zero is ignored rather than rejected: no error
    is logged, no hardware call is made, and the running flag, the device
    status, the hardware state and every parameter other than the acquire
    parameter are as they were; the acquire parameter holds the written
    value, so a write of the value it already holds leaves the whole
    parameter table unchanged.  What the handler hands back is left open. *)
Theorem start_while_acquiring_ignored
    (ix : ParamIndices) (hw : UvcScript) (stop_request : nat -> bool)
    (base : Z -> Z -> gmap Z Z -> Z * gmap Z Z)
    (fuel : nat) (junk value : Z) (d : Driver) :
  value <> 0 ->
  default 0 (params d !! ADAcquire ix) <> 0 ->
  let o := writeInt32 ix hw stop_request base fuel junk (ADAcquire ix) value d in
  (exists r, answer o = Some r) /\
  moving (state_of o) = moving d /\
  deviceStatus (state_of o) = deviceStatus d /\
  uvc (state_of o) = uvc d /\
  clock (state_of o) = clock d /\
  params (state_of o) = <[ADAcquire ix := value]> (params d) /\
  (params d !! ADAcquire ix = Some value -> params (state_of o) = params d) /\
  trace (state_of o)
  = trace d ++ EvSetParam (ADAcquire ix) value :: EvCallbacks :: nil.
Proof.
  intros Hv Ha o. subst o.
  rewrite (start_while_acquiring ix hw stop_request base fuel junk value d Hv Ha).
  destruct (stored_only_frame ix value d) as (Hm & Hs & Hu & Hc & _ & Ht).
  simpl answer. simpl state_of.
  split; [now exists None |].
  repeat split; try assumption.
  intros Hsame. now apply stored_only_same_value.
Qed.

Lemma start_while_acquiring_ignored_witness :
  let d := Sim.acquiring 2 30 1 in
  let o := writeInt32 Sim.indices Sim.camera_ok Sim.no_stop Sim.base 5 0
             (ADAcquire Sim.indices) 1 d in
  (exists r, answer o = Some r) /\
  moving (state_of o) = moving d /\
  deviceStatus (state_of o) = deviceStatus d /\
  uvc (state_of o) = uvc d /\
  clock (state_of o) = clock d /\
  params (state_of o) = <[ADAcquire Sim.indices := 1]> (params d) /\
  (params d !! ADAcquire Sim.indices = Some 1 ->
   params (state_of o) = params d) /\
  trace (state_of o)
  = trace d ++ EvSetParam (ADAcquire Sim.indices) 1 :: EvCallbacks :: nil.
Proof.
  apply (start_while_acquiring_ignored Sim.indices Sim.camera_ok Sim.no_stop
           Sim.base 5 0 1 (Sim.acquiring 2 30 1)).
  - lia.
  - vm_compute. discriminate.
Defined.

(** C4 as stated fails: a write of 1 while the acquire parameter is 1 is not
    rejected.  The handler runs to its end without logging an error (its
    status variable passes the final test as success) and leaves through
    the end of its body, where no failure status is handed back. *)
Lemma start_while_acquiring_not_rejected :
  let o := writeInt32 Sim.indices Sim.camera_ok Sim.no_stop Sim.base 5 0
             (ADAcquire Sim.indices) 1 (Sim.acquiring 2 30 1) in
  answer o = Some None /\
  filter is_error_event (trace (state_of o)) = nil /\
  trace (state_of o)
  = EvSetParam (ADAcquire Sim.indices) 1 :: EvCallbacks :: nil.
Proof.
  vm_compute. repeat split; reflexivity.
Qed.

(** C7 (the code departs from the claim in the returned status): a stop
    command (a write of 0 to the acquire parameter) that arrives while the
    acquire parameter reads 0 does nothing: no hardware call is made, in
    particular streaming is not stopped a second time, no error is
    reported, and every parameter reads as before.  But the handler ends
    without a return statement: control leaves it with no status defined,
    where the claim has it return success. *)
Theorem stop_idempotent
    (ix : ParamIndices) (hw : UvcScript) (stop_request : nat -> bool)
    (base : Z -> Z -> gmap Z Z -> Z * gmap Z Z)
    (fuel : nat) (junk : Z) (d : Driver) :
  default 0 (params d !! ADAcquire ix) = 0 ->
  let o := writeInt32 ix hw stop_request base fuel junk (ADAcquire ix) 0 d in
  answer o = Some None /\
  uvc_calls (trace (state_of o)) = uvc_calls (trace d) /\
  filter is_error_event (trace (state_of o)) = filter is_error_event (trace d) /\
  uvc (state_of o) = uvc d /\
  moving (state_of o) = moving d /\
  deviceStatus (state_of o) = deviceStatus d /\
  (forall i, default 0 (params (state_of o) !! i) = default 0 (params d !! i)).
Proof.
  intros Ha o. subst o.
  rewrite (stop_while_idle ix hw stop_request base fuel junk d Ha).
  destruct (stored_only_frame ix 0 d) as (Hm & Hs & Hu & _ & _ & Ht).
  simpl answer. simpl state_of.
  split; [reflexivity |].
  split. { rewrite Ht. unfold uvc_calls. rewrite flat_map_app. simpl.
           now rewrite app_nil_r. }
  split. { rewrite Ht. rewrite filter_app. simpl. now rewrite app_nil_r. }
  repeat (split; [assumption |]).
  intros i. simpl.
  destruct (decide (ADAcquire ix = i)) as [<- | Hne].
  - rewrite lookup_insert_eq. simpl. now rewrite Ha.
  - now rewrite lookup_insert_ne.
Qed.

Lemma stop_idempotent_witness :
  let d := Sim.idle 2 30 1 in
  let o := writeInt32 Sim.indices Sim.camera_ok Sim.no_stop Sim.base 5 0
             (ADAcquire Sim.indices) 0 d in
  answer o = Some None /\
  uvc_calls (trace (state_of o)) = uvc_calls (trace d) /\
  filter is_error_event (trace (state_of o)) = filter is_error_event (trace d) /\
  uvc (state_of o) = uvc d /\
  moving (state_of o) = moving d /\
  deviceStatus (state_of o) = deviceStatus d /\
  (forall i, default 0 (params (state_of o) !! i) = default 0 (params d !! i)).
Proof.
  apply (stop_idempotent Sim.indices Sim.camera_ok Sim.no_stop Sim.base 5 0
           (Sim.idle 2 30 1)).
  vm_compute. reflexivity.
Defined.

(** ** Timed stop against manual stop *)

(** C3 (the code departs from the claim): from one and the same streaming
    session, the expiry of the timer in single-shot mode (0) and in snapshot
    mode (1) only clears the running flag, while the stop procedure of a
    manual stop also stops hardware streaming and resets the status and
    acquire parameters.  After expiry the camera is still streaming and the
    acquire parameter still reads 1. *)
Theorem timer_expiry_skips_stop_procedure :
  expiry_differs_from_stop 0 /\ expiry_differs_from_stop 1.
Proof.
  split; vm_compute; repeat split; reflexivity.
Qed.

(** The whole command path shows the same: a start command in single-shot
    mode returns after one second with the camera still streaming and the
    acquire parameter still set, and only the stop command that follows
    tears the stream down. *)
Lemma single_shot_start_then_stop :
  let started :=
    writeInt32 Sim.indices Sim.camera_ok Sim.no_stop Sim.base 10 0
      (ADAcquire Sim.indices) 1 (Sim.idle 0 10 30) in
  let stopped :=
    writeInt32 Sim.indices Sim.camera_ok Sim.no_stop Sim.base 10 0
      (ADAcquire Sim.indices) 0 (state_of started) in
  answer started = Some None /\
  clock (state_of started) = 1%nat /\
  streaming (uvc (state_of started)) = true /\
  params (state_of started) !! ADAcquire Sim.indices = Some 1 /\
  uvc_calls (trace (state_of started))
  = CallGetStreamCtrl (mkStreamRequest UVC_FRAME_FORMAT_MJPEG 640 480 30)
      :: CallStartStreaming :: nil /\
  streaming (uvc (state_of stopped)) = false /\
  params (state_of stopped) !! ADAcquire Sim.indices = Some 0.
Proof.
  vm_compute. repeat split; reflexivity.
Qed.

(** ** Traces only grow *)

Lemma extends_refl d : extends d d.
Proof. exists nil. now rewrite app_nil_r. Qed.

Lemma extends_trans d1 d2 d3 : extends d1 d2 -> extends d2 d3 -> extends d1 d3.
Proof.
  intros [l1 H1] [l2 H2]. exists (l1 ++ l2). now rewrite H2, H1, app_assoc.
Qed.

Lemma grows_ret {A} (a : A) : grows (ret a).
Proof. intros d. apply extends_refl. Qed.

Lemma grows_fault {A} : grows (@fault A).
Proof. intros d. apply extends_refl. Qed.

Lemma grows_gets {A} (f : Driver -> A) : grows (gets f).
Proof. intros d. apply extends_refl. Qed.

Lemma grows_bind {A B} (m : M A) (k : A -> M B) :
  grows m -> (forall a, grows (k a)) -> grows (bind m k).
Proof.
  intros Hm Hk d. unfold bind. specialize (Hm d).
  destruct (m d) as [a d' | d' | d']; simpl in *; try assumption.
  eapply extends_trans; [exact Hm | apply Hk].
Qed.

Lemma grows_modify (f : Driver -> Driver) :
  (forall d, extends d (f d)) -> grows (modify f).
Proof. intros Hf d. apply Hf. Qed.

Lemma grows_when (b : bool) (m : M unit) : grows m -> grows (when b m).
Proof. intros Hm. destruct b; [exact Hm | apply grows_ret]. Qed.

Lemma grows_if {A} (b : bool) (m1 m2 : M A) :
  grows m1 -> grows m2 -> grows (if b then m1 else m2).
Proof. intros; now destruct b. Qed.

Lemma extends_emit e d : extends d (emit e d).
Proof. now exists (e :: nil). Qed.

Lemma extends_same_trace d d' : trace d' = trace d -> extends d d'.
Proof. intros H. exists nil. now rewrite app_nil_r. Qed.

Create HintDb grows discriminated.
#[local] Hint Resolve grows_ret grows_fault grows_gets grows_when
  extends_emit extends_refl : grows.
#[local] Hint Extern 2 (grows (if _ then _ else _)) => apply grows_if : grows.
#[local] Hint Extern 2 (grows (bind _ _)) =>
  apply grows_bind; [| intro] : grows.
#[local] Hint Extern 2 (grows (modify _)) =>
  apply grows_modify; intro; first [apply extends_emit
                                  | apply extends_same_trace; reflexivity
                                  | eexists (_ :: nil); reflexivity] : grows.

Section Growth.

Variable ix : ParamIndices.
Variable hw : UvcScript.
Variable stop_request : nat -> bool.
Variable base : Z -> Z -> gmap Z Z -> Z * gmap Z Z.

Lemma grows_getIntegerParam i : grows (getIntegerParam i).
Proof. unfold getIntegerParam. auto with grows. Qed.

Lemma grows_setIntegerParam i v : grows (setIntegerParam i v).
Proof. unfold setIntegerParam. auto with grows. Qed.

Lemma grows_callParamCallbacks : grows callParamCallbacks.
Proof. unfold callParamCallbacks. auto with grows. Qed.

Lemma grows_reportUVCError s f : grows (reportUVCError s f).
Proof. unfold reportUVCError. auto with grows. Qed.

Lemma grows_set_deviceStatus s : grows (set_deviceStatus s).
Proof. unfold set_deviceStatus. auto with grows. Qed.

Lemma grows_set_moving m : grows (set_moving m).
Proof. unfold set_moving. auto with grows. Qed.

Lemma grows_get_deviceStatus : grows get_deviceStatus.
Proof. unfold get_deviceStatus. auto with grows. Qed.

Lemma grows_uvc_call c rc f : grows (uvc_call c rc f).
Proof. intros d. unfold uvc_call. simpl. now exists (EvUvc c :: nil). Qed.

Hint Resolve grows_getIntegerParam grows_setIntegerParam
  grows_callParamCallbacks grows_reportUVCError grows_set_deviceStatus
  grows_set_moving grows_get_deviceStatus grows_uvc_call : grows.

Lemma grows_acquireStop : grows (acquireStop ix).
Proof.
  unfold acquireStop, uvc_stop_streaming. auto 10 with grows.
Qed.

Hint Resolve grows_acquireStop : grows.

Lemma grows_sleep1 : grows (sleep1 ix stop_request).
Proof. unfold sleep1. auto 10 with grows. Qed.

Hint Resolve grows_sleep1 : grows.

Lemma grows_snapshot_loop fuel :
  forall seconds counter, grows (snapshot_loop ix stop_request fuel seconds counter).
Proof.
  induction fuel as [| fuel IH]; intros seconds counter d; simpl.
  - destruct (_ && _); apply extends_refl.
  - destruct (_ && _); [| apply extends_refl].
    apply (grows_bind (sleep1 ix stop_request)); auto with grows.
Qed.

Lemma grows_continuous_loop fuel : grows (continuous_loop ix stop_request fuel).
Proof.
  induction fuel as [| fuel IH]; intros d; simpl.
  - destruct (_ =? _); apply extends_refl.
  - destruct (_ =? _); [| apply extends_refl].
    apply (grows_bind (sleep1 ix stop_request)); auto with grows.
Qed.

Hint Resolve grows_snapshot_loop grows_continuous_loop : grows.

Lemma grows_imageHandlerThread fuel :
  grows (imageHandlerThread ix stop_request fuel).
Proof.
  unfold imageHandlerThread.
  apply grows_bind; [auto with grows | intros mode].
  apply grows_bind; [auto with grows | intros rate].
  apply grows_bind; [auto with grows | intros count].
  apply grows_bind; [| auto with grows].
  repeat apply grows_if; auto with grows.
  destruct (snapshot_seconds count rate); auto with grows.
Qed.

Hint Resolve grows_imageHandlerThread : grows.

Lemma grows_acquireStart fuel : grows (acquireStart ix hw stop_request fuel).
Proof.
  unfold acquireStart, uvc_get_stream_ctrl_format_size, uvc_start_streaming.
  cbv zeta. auto 20 with grows.
Qed.

Hint Resolve grows_acquireStart : grows.

Lemma grows_base_call function value :
  grows (fun d => let '(s, p) := base function value (params d) in
                  Returned s (with_params p d)).
Proof.
  intros d. destruct (base function value (params d)) as [s p].
  now apply extends_same_trace.
Qed.

Hint Resolve grows_base_call : grows.

Lemma grows_writeInt32 fuel junk function value :
  grows (writeInt32 ix hw stop_request base fuel junk function value).
Proof.
  unfold writeInt32. auto 20 with grows.
Qed.

(** When the first step of a sequence records exactly one event, that
    event comes first among everything the sequence records. *)
Lemma first_event_bind {A B} (m : M A) (k : A -> M B) d a d1 e :
  m d = Returned a d1 ->
  trace d1 = trace d ++ e :: nil ->
  grows (k a) ->
  exists rest, trace (state_of (bind m k d)) = trace d ++ e :: rest.
Proof.
  intros Hm Ht Hk. unfold bind. rewrite Hm.
  destruct (Hk d1) as [l Hl]. exists l.
  rewrite Hl, Ht, <- app_assoc. reflexivity.
Qed.

Lemma acquireStart_first_call fuel d :
  exists rest,
    trace (state_of (acquireStart ix hw stop_request fuel d))
    = trace d ++ EvUvc (CallGetStreamCtrl negotiated) :: rest.
Proof.
  unfold acquireStart.
  eapply first_event_bind with
    (d1 := with_deviceStatus (ctrl_rc hw negotiated)
             (emit (EvUvc (CallGetStreamCtrl negotiated)) d)).
  - unfold uvc_get_stream_ctrl_format_size, uvc_call, set_deviceStatus.
    run_monad. destruct (_ <? _); reflexivity.
  - reflexivity.
  - unfold uvc_start_streaming. auto 20 with grows.
Qed.

Lemma acquireStart_rejected fuel d :
  ctrl_rc hw negotiated < 0 ->
  acquireStart ix hw stop_request fuel d
  = Returned (Some (ctrl_rc hw negotiated))
      (emit EvCallbacks
         (emit (EvSetParam (ADAcquire ix) 0)
            (with_params (<[ADAcquire ix := 0]> (params d))
               (with_deviceStatus (ctrl_rc hw negotiated)
                  (emit (EvUvc (CallGetStreamCtrl negotiated)) d))))).
Proof.
  intros Hrc.
  unfold acquireStart, uvc_get_stream_ctrl_format_size, uvc_call,
    set_deviceStatus, get_deviceStatus, setIntegerParam, callParamCallbacks.
  run_monad. fold negotiated.
  destruct (Z.ltb_spec (ctrl_rc hw negotiated) 0) as [_ | ?]; [| lia].
  reflexivity.
Qed.

Lemma writeInt32_first_event fuel junk function value d :
  exists rest,
    trace (state_of (writeInt32 ix hw stop_request base fuel junk
                       function value d))
    = trace d ++ EvSetParam function value :: rest.
Proof.
  unfold writeInt32. cbv zeta.
  unfold bind at 1. unfold getIntegerParam at 1. unfold gets at 1.
  eapply first_event_bind with
    (d1 := emit (EvSetParam function value)
             (with_params (<[function := value]> (params d)) d)).
  - reflexivity.
  - reflexivity.
  - auto 20 with grows.
Qed.

End Growth.

(** ** Negotiation *)

(** C5 (the code departs from the claim): the negotiated request does not
    follow the configured frame rate.  With the frame-rate parameter set to
    10 before the start, in snapshot mode for 30 frames, [acquireStart]
    asks the camera for MJPEG 640x480 at the literal rate of 30 frames per
    second, and no request in the whole run carries the rate 10; yet the
    timer of the same session reads the parameter and waits 30 / 10 + 1 = 4
    seconds. *)
Theorem negotiation_ignores_frame_rate :
  let d := Sim.idle 1 10 30 in
  let o := acquireStart Sim.indices Sim.camera_30fps Sim.no_stop 5 d in
  params d !! ADUVC_Framerate Sim.indices = Some 10 /\
  uvc_calls (trace (state_of o))
  = CallGetStreamCtrl (mkStreamRequest UVC_FRAME_FORMAT_MJPEG 640 480 30)
      :: CallStartStreaming :: nil /\
  ~ (exists req, In (CallGetStreamCtrl req) (uvc_calls (trace (state_of o)))
                 /\ req_fps req = 10) /\
  answer o = Some None /\
  clock (state_of o) = 4%nat.
Proof.
  vm_compute. split; [reflexivity |]. split; [reflexivity |].
  split; [| split; reflexivity].
  intros (req & [H | [H | []]] & Hfps).
  - inversion H; subst. discriminate Hfps.
  - discriminate H.
Qed.

(** ** The frame callback *)

(** C8 (the code departs from the claim): for every raw frame the callback
    takes the driver lock, reads the data-type parameter and returns.  No
    image buffer is produced, so nothing carries the frame's width, height,
    data type or timestamp, no sequence counter is stamped, and the lock is
    left held. *)
Theorem frame_callback_produces_no_buffer
    (ix : ParamIndices) (frame : uvc_frame) (d : Driver) :
  let o := newFrameCallback ix frame d in
  answer o = Some tt /\
  delivered (state_of o) = delivered d /\
  lockDepth (state_of o) = S (lockDepth d) /\
  params (state_of o) = params d /\
  trace (state_of o) = trace d ++ EvLock :: nil.
Proof.
  unfold newFrameCallback, lock, getIntegerParam. run_monad.
  repeat split.
Qed.

(** Two consecutive frames of one session leave the consumer with nothing. *)
Lemma two_frames_deliver_nothing :
  let f1 := mkFrame 640 480 UVC_FRAME_FORMAT_MJPEG 1 1000 (1 :: 2 :: nil) in
  let f2 := mkFrame 640 480 UVC_FRAME_FORMAT_MJPEG 2 1033 (3 :: 4 :: nil) in
  let d1 := state_of (newFrameCallback Sim.indices f1
                        (with_moving 1 (Sim.acquiring 2 30 1))) in
  let d2 := state_of (newFrameCallback Sim.indices f2 d1) in
  delivered d2 = nil /\ lockDepth d2 = 2%nat.
Proof.
  vm_compute. split; reflexivity.
Qed.

(** ** Continuous mode and the blocking start *)

Section Blocking.

Variable ix : ParamIndices.
Variable hw : UvcScript.
Variable stop_request : nat -> bool.

Lemma acquireStop_returns d :
  acquireStop ix d = Returned tt (stopped_state ix d).
Proof. reflexivity. Qed.

Lemma sleep1_stopped d :
  stop_request (clock d) = true ->
  sleep1 ix stop_request d
  = Returned tt
      (with_clock (S (clock d))
         (stopped_state ix (emit EvExternalStop (emit EvSleep d)))).
Proof.
  intros Hs. unfold sleep1. run_monad. rewrite Hs. reflexivity.
Qed.

(** The first external stop, arriving during second [clock d + k], ends
    the continuous loop at the next test of the flag. *)
Lemma continuous_loop_stopped (k : nat) :
  forall fuel d,
    moving d = 1 ->
    quiet_for stop_request k d ->
    stop_request (clock d + k) = true ->
    (k < fuel)%nat ->
    exists d',
      continuous_loop ix stop_request fuel d = Returned tt d' /\
      moving d' = 0 /\ clock d' = (clock d + S k)%nat /\
      streaming (uvc d') = false.
Proof.
  induction k as [| k IH]; intros fuel d Hm Hq Hs Hf;
    (destruct fuel as [| fuel]; [lia |]); simpl; rewrite Hm; simpl.
  - rewrite Nat.add_0_r in Hs. unfold bind. rewrite (sleep1_stopped d Hs).
    eexists. split.
    + destruct fuel; simpl; reflexivity.
    + simpl. repeat split. lia.
  - apply (quiet_for_step stop_request) in Hq as [Hq0 Hq].
    unfold bind. rewrite (sleep1_quiet ix stop_request d Hq0).
    destruct (IH fuel (with_clock (S (clock d)) (emit EvSleep d)))
      as (d' & Hrun & Hm' & Hc' & Hst'); try assumption.
    + simpl. rewrite Nat.add_succ_r in Hs. exact Hs.
    + lia.
    + exists d'. simpl in Hc'. repeat split; try assumption. lia.
Qed.

Lemma imageHandlerThread_continuous_quiet fuel d :
  params d !! ADUVC_OperatingMode ix = Some 2 ->
  moving d = 1 ->
  quiet_for stop_request fuel d ->
  imageHandlerThread ix stop_request fuel d
  = StillRunning (idle_sleeps fuel d).
Proof.
  intros Hmode Hm Hq. unfold imageHandlerThread, getIntegerParam.
  run_monad. rewrite Hmode. simpl.
  now rewrite (continuous_loop_quiet ix stop_request fuel d Hm Hq).
Qed.

Lemma imageHandlerThread_continuous_stopped k fuel d :
  params d !! ADUVC_OperatingMode ix = Some 2 ->
  moving d = 1 ->
  quiet_for stop_request k d ->
  stop_request (clock d + k) = true ->
  (k < fuel)%nat ->
  exists d',
    imageHandlerThread ix stop_request fuel d = Returned tt d' /\
    moving d' = 0 /\ clock d' = (clock d + S k)%nat /\
    streaming (uvc d') = false.
Proof.
  intros Hmode Hm Hq Hs Hf.
  destruct (continuous_loop_stopped k fuel d Hm Hq Hs Hf)
    as (d' & Hrun & Hm' & Hc' & Hst').
  exists (with_moving 0 d').
  unfold imageHandlerThread, getIntegerParam. run_monad.
  rewrite Hmode. simpl. rewrite Hrun. simpl. repeat split; assumption.
Qed.

(** On its success path [acquireStart] is the timer run from
    [timer_entry], followed by falling off the end of the function. *)
Lemma acquireStart_enters_timer fuel d :
  0 <= ctrl_rc hw negotiated ->
  0 <= start_rc hw ->
  acquireStart ix hw stop_request fuel d
  = bind (imageHandlerThread ix stop_request fuel) (fun _ => ret None)
      (timer_entry ix hw d).
Proof.
  intros Hc Hs.
  unfold acquireStart, uvc_get_stream_ctrl_format_size, uvc_start_streaming,
    uvc_call, set_deviceStatus, get_deviceStatus, setIntegerParam,
    callParamCallbacks, set_moving.
  cbv zeta. fold negotiated. unfold bind at 1 2 3.  run_monad.
  destruct (Z.ltb_spec (ctrl_rc hw negotiated) 0) as [? | _]; [lia |].
  simpl.
  destruct (Z.ltb_spec (start_rc hw) 0) as [? | _]; [lia |].
  simpl. unfold timer_entry. simpl.
  destruct d; reflexivity.
Qed.

End Blocking.

(** C6: in continuous mode (operating mode 2) with the running flag up, the
    timer is still inside its wait loop after any number [n] of one-second
    iterations during which no external stop arrived: the flag is still 1,
    exactly [n] seconds have been slept, the hardware state is untouched,
    and the session has not ended. *)
Theorem continuous_never_self_terminates
    (ix : ParamIndices) (stop_request : nat -> bool) (n : nat) (d : Driver) :
  params d !! ADUVC_OperatingMode ix = Some 2 ->
  moving d = 1 ->
  quiet_for stop_request n d ->
  let o := imageHandlerThread ix stop_request n d in
  is_running o = true /\
  answer o = None /\
  moving (state_of o) = 1 /\
  clock (state_of o) = (clock d + n)%nat /\
  uvc (state_of o) = uvc d /\
  trace (state_of o) = trace d ++ repeat EvSleep n.
Proof.
  intros Hmode Hm Hq o. subst o.
  rewrite (imageHandlerThread_continuous_quiet ix stop_request n d Hmode Hm Hq).
  simpl. repeat split.
  - now rewrite idle_sleeps_moving.
  - apply idle_sleeps_clock.
  - apply idle_sleeps_uvc.
  - apply idle_sleeps_trace.
Qed.

Lemma continuous_never_self_terminates_witness :
  let d := with_moving 1 (Sim.acquiring 2 30 1) in
  let o := imageHandlerThread Sim.indices Sim.no_stop 100 d in
  is_running o = true /\
  answer o = None /\
  moving (state_of o) = 1 /\
  clock (state_of o) = (clock d + 100)%nat /\
  uvc (state_of o) = uvc d /\
  trace (state_of o) = trace d ++ repeat EvSleep 100.
Proof.
  apply (continuous_never_self_terminates Sim.indices Sim.no_stop 100
           (with_moving 1 (Sim.acquiring 2 30 1))).
  - reflexivity.
  - reflexivity.
  - intros k _. reflexivity.
Defined.

(** C9: when negotiation and stream start both succeed, [acquireStart] runs
    the timer on the calling thread from the state it has just set up (flag
    raised, camera streaming) and its own outcome is the timer's: it has
    returned exactly when the timer has, and it is still running whenever
    the timer is.  In continuous mode it is therefore still running after
    any number of seconds without an external stop, and it returns one
    second-tick after the first external stop has cleared the flag. *)
Theorem acquireStart_blocks_on_timer
    (ix : ParamIndices) (hw : UvcScript) (stop_request : nat -> bool)
    (d : Driver) :
  0 <= ctrl_rc hw negotiated ->
  0 <= start_rc hw ->
  let d1 := timer_entry ix hw d in
  moving d1 = 1 /\ streaming (uvc d1) = true /\ clock d1 = clock d /\
  (forall fuel,
     let o := acquireStart ix hw stop_request fuel d in
     let t := imageHandlerThread ix stop_request fuel d1 in
     is_running o = is_running t /\
     answer o = option_map (fun _ => None) (answer t) /\
     state_of o = state_of t) /\
  (params d !! ADUVC_OperatingMode ix = Some 2 ->
   ADNumImagesCounter ix <> ADUVC_OperatingMode ix ->
   (forall fuel,
      quiet_for stop_request fuel d ->
      is_running (acquireStart ix hw stop_request fuel d) = true) /\
   (forall k fuel : nat,
      quiet_for stop_request k d ->
      stop_request (clock d + k)%nat = true ->
      (k < fuel)%nat ->
      let o := acquireStart ix hw stop_request fuel d in
      answer o = Some None /\
      moving (state_of o) = 0 /\
      clock (state_of o) = (clock d + S k)%nat)).
Proof.
  intros Hc Hs d1.
  assert (forall fuel, acquireStart ix hw stop_request fuel d
                       = bind (imageHandlerThread ix stop_request fuel)
                              (fun _ => ret None) d1) as Hrun
    by (intros; now apply acquireStart_enters_timer).
  split; [reflexivity |]. split; [reflexivity |]. split; [reflexivity |].
  split.
  { intros fuel o t. subst o t. rewrite Hrun. unfold bind.
    destruct (imageHandlerThread ix stop_request fuel d1); repeat split. }
  intros Hmode Hne.
  assert (params d1 !! ADUVC_OperatingMode ix = Some 2) as Hmode1.
  { subst d1. simpl. now rewrite lookup_insert_ne. }
  split.
  - intros fuel Hq. rewrite Hrun. unfold bind.
    rewrite (imageHandlerThread_continuous_quiet ix stop_request fuel d1);
      try assumption; reflexivity.
  - intros k fuel Hq Hstop Hk o. subst o. rewrite Hrun. unfold bind.
    destruct (imageHandlerThread_continuous_stopped ix stop_request k fuel d1)
      as (d' & Ht & Hm' & Hc' & _); try assumption; try reflexivity.
    rewrite Ht. simpl. repeat split; assumption.
Qed.

Lemma acquireStart_blocks_on_timer_witness :
  let d := Sim.idle 2 30 1 in
  is_running (acquireStart Sim.indices Sim.camera_ok Sim.no_stop 100 d) = true /\
  (let o := acquireStart Sim.indices Sim.camera_ok (Sim.stop_at 5) 100 d in
   answer o = Some None /\
   moving (state_of o) = 0 /\
   clock (state_of o) = (clock d + 6)%nat).
Proof.
  split.
  - destruct (acquireStart_blocks_on_timer Sim.indices Sim.camera_ok
                Sim.no_stop (Sim.idle 2 30 1)
                ltac:(simpl; lia) ltac:(simpl; lia))
      as (_ & _ & _ & _ & Hcont).
    destruct (Hcont eq_refl ltac:(simpl; lia)) as [Hquiet _].
    apply Hquiet. intros k _. reflexivity.
  - destruct (acquireStart_blocks_on_timer Sim.indices Sim.camera_ok
                (Sim.stop_at 5) (Sim.idle 2 30 1)
                ltac:(simpl; lia) ltac:(simpl; lia))
      as (_ & _ & _ & _ & Hcont).
    destruct (Hcont eq_refl ltac:(simpl; lia)) as [_ Hstop].
    apply (Hstop 5%nat 100%nat).
    + intros k Hk. unfold Sim.stop_at. simpl.
      destruct (Nat.eqb_spec k 5); [lia | reflexivity].
    + reflexivity.
    + lia.
Defined.

(** ** Parameter writes *)

Section Writes.

Variable ix : ParamIndices.
Variable hw : UvcScript.
Variable stop_request : nat -> bool.
Variable base : Z -> Z -> gmap Z Z -> Z * gmap Z Z.

(** A failed stream start, after a successful negotiation. *)
Lemma acquireStart_start_rejected fuel d :
  0 <= ctrl_rc hw negotiated ->
  start_rc hw < 0 ->
  exists d',
    acquireStart ix hw stop_request fuel d = Returned (Some (start_rc hw)) d' /\
    params d'
    = <[ADAcquire ix := 0]> (<[ADNumImagesCounter ix := 0]> (params d)) /\
    uvc d' = uvc d.
Proof.
  intros Hc Hs.
  unfold acquireStart, uvc_get_stream_ctrl_format_size, uvc_start_streaming,
    uvc_call, set_deviceStatus, get_deviceStatus, setIntegerParam,
    callParamCallbacks.
  cbv zeta. fold negotiated. run_monad.
  destruct (Z.ltb_spec (ctrl_rc hw negotiated) 0) as [? | _]; [lia |].
  simpl.
  destruct (Z.ltb_spec (start_rc hw) 0) as [_ | ?]; [| lia].
  simpl. eexists. repeat split.
Qed.

(** A start command whose action fails ends with the acquire parameter
    reset. *)
Lemma failed_start_resets_acquire fuel junk value d :
  value <> 0 ->
  default 0 (params d !! ADAcquire ix) = 0 ->
  ctrl_rc hw negotiated < 0 \/ (0 <= ctrl_rc hw negotiated /\ start_rc hw < 0) ->
  params (state_of (writeInt32 ix hw stop_request base fuel junk
                      (ADAcquire ix) value d)) !! ADAcquire ix = Some 0.
Proof.
  intros Hv Ha Hfail. unfold writeInt32. cbv zeta.
  set (start := acquireStart ix hw stop_request fuel).
  unfold getIntegerParam, setIntegerParam, callParamCallbacks,
    set_deviceStatus, get_deviceStatus, reportUVCError.
  run_monad. rewrite Z.eqb_refl, Ha.
  destruct (Z.eqb_spec value 0) as [? | _]; [contradiction |]. simpl.
  subst start.
  destruct Hfail as [Hc | [Hc Hs]].
  - rewrite (acquireStart_rejected ix hw stop_request fuel _ Hc). simpl.
    destruct (_ <? _); simpl; apply lookup_insert_eq.
  - destruct (acquireStart_start_rejected fuel
                (emit (EvSetParam (ADAcquire ix) value)
                   (with_params (<[ADAcquire ix := value]> (params d)) d))
                Hc Hs) as (d' & Hrun & Hp & _).
    rewrite Hrun. simpl.
    destruct (_ <? _); simpl; rewrite Hp; apply lookup_insert_eq.
Qed.

(** A write to a driver parameter that carries no command. *)
Lemma plain_write fuel junk function value d :
  function <> ADAcquire ix ->
  ADUVC_FIRST_PARAM ix <= function ->
  writeInt32 ix hw stop_request base fuel junk function value d
  = Returned None
      (emit EvCallbacks
         (emit (EvSetParam function value)
            (with_params (<[function := value]> (params d)) d))).
Proof.
  intros Hne Hge.
  unfold writeInt32, getIntegerParam, setIntegerParam, callParamCallbacks.
  run_monad.
  destruct (Z.eqb_spec function (ADAcquire ix)) as [? | _]; [contradiction |].
  destruct (Z.ltb_spec function (ADUVC_FIRST_PARAM ix)) as [? | _]; [lia |].
  reflexivity.
Qed.

End Writes.

(** C10 (as amended): every write handled by [writeInt32] stores the written
    value before anything else happens.  A start or stop write whose action
    is skipped, and a write to a driver parameter without a command, end
    with exactly the written value stored, the parameter callbacks run, and
    nothing else in the driver changed.  A start write whose action fails
    does not keep the written value: [acquireStart] resets the acquire
    parameter to 0. *)
Theorem write_stores_value_first
    (ix : ParamIndices) (hw : UvcScript) (stop_request : nat -> bool)
    (base : Z -> Z -> gmap Z Z -> Z * gmap Z Z)
    (fuel : nat) (junk function value : Z) (d : Driver) :
  let o := writeInt32 ix hw stop_request base fuel junk function value d in
  let acquiring := default 0 (params d !! ADAcquire ix) in
  let only_stored :=
    params (state_of o) = <[function := value]> (params d) /\
    moving (state_of o) = moving d /\
    deviceStatus (state_of o) = deviceStatus d /\
    uvc (state_of o) = uvc d /\
    lockDepth (state_of o) = lockDepth d /\
    clock (state_of o) = clock d /\
    delivered (state_of o) = delivered d /\
    trace (state_of o)
    = trace d ++ EvSetParam function value :: EvCallbacks :: nil in
  (exists rest,
     trace (state_of o) = trace d ++ EvSetParam function value :: rest) /\
  (function = ADAcquire ix ->
   (value <> 0 /\ acquiring <> 0) \/ (value = 0 /\ acquiring = 0) ->
   only_stored) /\
  (function <> ADAcquire ix -> ADUVC_FIRST_PARAM ix <= function ->
   only_stored) /\
  (function = ADAcquire ix -> value <> 0 -> acquiring = 0 ->
   ctrl_rc hw negotiated < 0
   \/ (0 <= ctrl_rc hw negotiated /\ start_rc hw < 0) ->
   params (state_of o) !! ADAcquire ix = Some 0).
Proof.
  intros o acquiring only_stored. subst o acquiring only_stored.
  split; [apply writeInt32_first_event |].
  split.
  { intros -> [[Hv Ha] | [-> Ha]].
    - rewrite (start_while_acquiring ix hw stop_request base fuel junk
                 value d Hv Ha).
      simpl. repeat split. now rewrite <- app_assoc.
    - rewrite (stop_while_idle ix hw stop_request base fuel junk d Ha).
      simpl. repeat split. now rewrite <- app_assoc. }
  split.
  { intros Hne Hge.
    rewrite (plain_write ix hw stop_request base fuel junk function value
               d Hne Hge).
    simpl. repeat split. now rewrite <- app_assoc. }
  intros -> Hv Ha Hfail. now apply failed_start_resets_acquire.
Qed.

Lemma write_stores_value_first_witness :
  let d := Sim.acquiring 2 30 1 in
  let o := writeInt32 Sim.indices Sim.camera_ok Sim.no_stop Sim.base 5 0
             (ADAcquire Sim.indices) 1 d in
  params (state_of o) = <[ADAcquire Sim.indices := 1]> (params d) /\
  uvc (state_of o) = uvc d /\
  trace (state_of o)
  = trace d ++ EvSetParam (ADAcquire Sim.indices) 1 :: EvCallbacks :: nil.
Proof.
  destruct (write_stores_value_first Sim.indices Sim.camera_ok Sim.no_stop
              Sim.base 5 0 (ADAcquire Sim.indices) 1 (Sim.acquiring 2 30 1))
    as (_ & Hskip & _ & _).
  destruct Hskip as (Hp & _ & _ & Hu & _ & _ & _ & Ht).
  - reflexivity.
  - left. split; [lia | vm_compute; discriminate].
  - split; [exact Hp |]. split; [exact Hu | exact Ht].
Defined.

(** C10 as stated fails for a start whose action fails: written while the
    camera rejects the stream format, the value 1 is stored first and then
    overwritten, so the acquire parameter reads 0 when the handler is
    done. *)
Lemma failed_start_loses_written_value :
  let o := writeInt32 Sim.indices Sim.camera_no_format Sim.no_stop Sim.base
             5 0 (ADAcquire Sim.indices) 1 (Sim.idle 0 10 30) in
  params (state_of o) !! ADAcquire Sim.indices = Some 0 /\
  params (state_of o) !! ADAcquire Sim.indices <> Some 1 /\
  trace (state_of o)
  = EvSetParam 10 1
      :: EvUvc (CallGetStreamCtrl negotiated)
      :: EvSetParam 10 0 :: EvCallbacks
      :: EvUvcError "writeInt32"%string (-51) :: EvCallbacks :: nil.
Proof.
  vm_compute. repeat split; try reflexivity. discriminate.
Qed.


(** * Further properties of the driver *)

(** ** Connection and teardown *)

(** X1: when the three steps succeed, [connectToDeviceUVC] answers [true]
    having made exactly the calls init, find (with the requested serial
    number) and open, in that order; one context, one device reference and
    one handle more are held, and nothing else in the driver changed. *)
Theorem connect_success_acquires_all
    (hw : UvcScript) (serial : Z) (d : Driver) :
  0 <= init_rc hw -> 0 <= find_rc hw serial -> 0 <= open_rc hw ->
  let o := connectToDeviceUVC hw serial d in
  answer o = Some true /\
  uvc (state_of o) = acquire_handle (acquire_device (acquire_context (uvc d))) /\
  deviceStatus (state_of o) = open_rc hw /\
  params (state_of o) = params d /\ moving (state_of o) = moving d /\
  trace (state_of o)
  = trace d ++ EvUvc CallInit :: EvUvc (CallFindDevice serial)
            :: EvUvc CallOpen :: nil.
Proof.
  intros Hi Hf Ho. cbv zeta.
  unfold connectToDeviceUVC, uvc_init, uvc_find_device, uvc_open, uvc_call.
  run_monad.
  destruct (Z.ltb_spec (init_rc hw) 0) as [? | _]; [lia |]. simpl.
  destruct (Z.ltb_spec (find_rc hw serial) 0) as [? | _]; [lia |]. simpl.
  destruct (Z.ltb_spec (open_rc hw) 0) as [? | _]; [lia |]. simpl.
  repeat split. rewrite <- !app_assoc. reflexivity.
Qed.

Lemma connect_success_acquires_all_witness :
  let o := connectToDeviceUVC Sim.camera_ok 7 Sim.fresh in
  answer o = Some true /\
  uvc (state_of o)
  = acquire_handle (acquire_device (acquire_context (uvc Sim.fresh))) /\
  deviceStatus (state_of o) = 0 /\
  params (state_of o) = params Sim.fresh /\
  moving (state_of o) = moving Sim.fresh /\
  trace (state_of o)
  = trace Sim.fresh ++ EvUvc CallInit :: EvUvc (CallFindDevice 7)
      :: EvUvc CallOpen :: nil.
Proof.
  apply (connect_success_acquires_all Sim.camera_ok 7 Sim.fresh); simpl; lia.
Defined.

(** X2: when context initialisation itself fails, [connectToDeviceUVC]
    answers [false] after that single call: discovery and open are never
    attempted, the hardware layer holds what it held before, and the failing
    code is reported once and kept in [deviceStatus]. *)
Theorem connect_init_failure_stops_early
    (hw : UvcScript) (serial : Z) (d : Driver) :
  init_rc hw < 0 ->
  let o := connectToDeviceUVC hw serial d in
  answer o = Some false /\
  uvc (state_of o) = uvc d /\
  deviceStatus (state_of o) = init_rc hw /\
  trace (state_of o)
  = trace d ++ EvUvc CallInit
            :: EvUvcError "connectToDeviceUVC"%string (init_rc hw) :: nil.
Proof.
  intros Hi. cbv zeta.
  unfold connectToDeviceUVC, uvc_init, uvc_call. run_monad.
  destruct (Z.ltb_spec (init_rc hw) 0) as [_ | ?]; [| lia]. simpl.
  repeat split. rewrite <- !app_assoc. reflexivity.
Qed.

Lemma connect_init_failure_stops_early_witness :
  let hw := mkUvcScript (-99) (fun _ => 0) 0 (fun _ => 0) 0 in
  let o := connectToDeviceUVC hw 7 Sim.fresh in
  answer o = Some false /\
  uvc (state_of o) = uvc Sim.fresh /\
  deviceStatus (state_of o) = -99 /\
  trace (state_of o)
  = trace Sim.fresh ++ EvUvc CallInit
      :: EvUvcError "connectToDeviceUVC"%string (-99) :: nil.
Proof.
  apply (connect_init_failure_stops_early
           (mkUvcScript (-99) (fun _ => 0) 0 (fun _ => 0) 0) 7 Sim.fresh).
  simpl. lia.
Defined.

(** X3: for every camera, [connectToDeviceUVC] returns, and its answer is
    [true] exactly when none of the three return codes is negative; the
    answer is [false] exactly when [deviceStatus] is left negative, and the
    call changes neither the parameter table nor the running flag. *)
Theorem connect_answer_characterised
    (hw : UvcScript) (serial : Z) (d : Driver) :
  let o := connectToDeviceUVC hw serial d in
  answer o
  = Some ((0 <=? init_rc hw) && (0 <=? find_rc hw serial) && (0 <=? open_rc hw)) /\
  answer o = Some (0 <=? deviceStatus (state_of o)) /\
  params (state_of o) = params d /\ moving (state_of o) = moving d.
Proof.
  cbv zeta.
  unfold connectToDeviceUVC, uvc_init, uvc_find_device, uvc_open, uvc_call.
  run_monad.
  destruct (Z.ltb_spec (init_rc hw) 0) as [Hi | Hi]; simpl.
  { destruct (Z.leb_spec 0 (init_rc hw)); [lia |]. repeat split. }
  destruct (Z.ltb_spec (find_rc hw serial) 0) as [Hf | Hf]; simpl.
  { destruct (Z.leb_spec 0 (init_rc hw)); [| lia].
    destruct (Z.leb_spec 0 (find_rc hw serial)); [lia |]. repeat split. }
  destruct (Z.ltb_spec (open_rc hw) 0) as [Ho | Ho]; simpl;
    destruct (Z.leb_spec 0 (init_rc hw)); try lia;
    destruct (Z.leb_spec 0 (find_rc hw serial)); try lia;
    destruct (Z.leb_spec 0 (open_rc hw)); try lia; repeat split.
Qed.

(** X4: a completed connection followed by the destructor is a round trip
    on the counted resources: exactly the contexts, device references and
    handles that were held before the connection are held after the
    teardown, and the camera does not stream.  The destructor first frees
    the device descriptor, which the connection never obtained, then closes,
    unrefs and exits in the reverse order of the acquisitions, and
    disconnects the port. *)
Theorem connect_destroy_round_trip
    (hw : UvcScript) (serial : Z) (d : Driver) :
  0 <= init_rc hw -> 0 <= find_rc hw serial -> 0 <= open_rc hw ->
  let c := state_of (connectToDeviceUVC hw serial d) in
  let e := state_of (destroy c) in
  contexts (uvc e) = contexts (uvc d) /\
  devices (uvc e) = devices (uvc d) /\
  handles (uvc e) = handles (uvc d) /\
  streaming (uvc e) = false /\
  trace e
  = trace d ++ EvUvc CallInit :: EvUvc (CallFindDevice serial)
            :: EvUvc CallOpen :: EvUvc CallFreeDeviceDescriptor
            :: EvUvc CallClose :: EvUvc CallUnrefDevice
            :: EvUvc CallExit :: EvDisconnect :: nil.
Proof.
  intros Hi Hf Ho. cbv zeta.
  unfold connectToDeviceUVC, destroy, uvc_init, uvc_find_device, uvc_open,
    uvc_free_device_descriptor, uvc_close, uvc_unref_device, uvc_exit,
    disconnect, uvc_call.
  run_monad.
  destruct (Z.ltb_spec (init_rc hw) 0) as [? | _]; [lia |]. simpl.
  destruct (Z.ltb_spec (find_rc hw serial) 0) as [? | _]; [lia |]. simpl.
  destruct (Z.ltb_spec (open_rc hw) 0) as [? | _]; [lia |]. simpl.
  repeat split. rewrite <- !app_assoc. reflexivity.
Qed.

Lemma connect_destroy_round_trip_witness :
  let c := state_of (connectToDeviceUVC Sim.camera_ok 7 Sim.fresh) in
  let e := state_of (destroy c) in
  contexts (uvc e) = contexts (uvc Sim.fresh) /\
  devices (uvc e) = devices (uvc Sim.fresh) /\
  handles (uvc e) = handles (uvc Sim.fresh) /\
  streaming (uvc e) = false /\
  trace e
  = trace Sim.fresh ++ EvUvc CallInit :: EvUvc (CallFindDevice 7)
      :: EvUvc CallOpen :: EvUvc CallFreeDeviceDescriptor
      :: EvUvc CallClose :: EvUvc CallUnrefDevice
      :: EvUvc CallExit :: EvDisconnect :: nil.
Proof.
  apply (connect_destroy_round_trip Sim.camera_ok 7 Sim.fresh); simpl; lia.
Defined.

(** ** The stop procedure *)

(** X5: from every state [acquireStop] returns with the running flag
    cleared, the camera not streaming, the acquire parameter reading 0 and
    the status parameter reading idle; it makes the single hardware call
    stop-streaming and gives back none of the context, device reference or
    handle. *)
Theorem acquireStop_postcondition (ix : ParamIndices) (d : Driver) :
  let o := acquireStop ix d in
  answer o = Some tt /\
  moving (state_of o) = 0 /\
  streaming (uvc (state_of o)) = false /\
  params (state_of o) !! ADAcquire ix = Some 0 /\
  params (state_of o) !! ADStatus ix = Some ADStatusIdle /\
  (forall i, i <> ADAcquire ix -> i <> ADStatus ix ->
             params (state_of o) !! i = params d !! i) /\
  contexts (uvc (state_of o)) = contexts (uvc d) /\
  devices (uvc (state_of o)) = devices (uvc d) /\
  handles (uvc (state_of o)) = handles (uvc d) /\
  uvc_calls (trace (state_of o)) = uvc_calls (trace d) ++ CallStopStreaming :: nil.
Proof.
  cbv zeta. rewrite acquireStop_returns. simpl.
  repeat split.
  - apply lookup_insert_eq.
  - rewrite lookup_insert. case_decide; [reflexivity |].
    apply lookup_insert_eq.
  - intros i Ha Hs. rewrite !lookup_insert_ne by congruence. reflexivity.
  - unfold uvc_calls. rewrite <- !app_assoc, flat_map_app. reflexivity.
Qed.

(** X6: the stop procedure is idempotent on the driver: running it a second
    time leaves the parameter table, the running flag, the device status
    and the hardware state exactly as the first run left them. *)
Theorem acquireStop_idempotent (ix : ParamIndices) (d : Driver) :
  let once := state_of (acquireStop ix d) in
  let twice := state_of (acquireStop ix once) in
  params twice = params once /\ moving twice = moving once /\
  deviceStatus twice = deviceStatus once /\ uvc twice = uvc once /\
  clock twice = clock once /\ delivered twice = delivered once.
Proof.
  cbv zeta. rewrite !acquireStop_returns. simpl.
  repeat split.
  apply map_eq. intros i.
  rewrite !lookup_insert. repeat case_decide; reflexivity.
Qed.

(** ** Starting *)

(** X7: a start that fails, at negotiation or at stream start, leaves no
    partial session and makes no second attempt.  [acquireStart] returns
    the code of the failing call (the negotiation's code when that is
    negative, else the stream start's), which is also left in
    [deviceStatus]; the only hardware calls are the one negotiation request
    and, when negotiation succeeded, the one stream start; the hardware
    state, the running flag and the clock are as before (the timer never
    ran), the acquire parameter reads 0, and [acquireStart] itself reports
    no error. *)
Theorem acquireStart_failure_reverts
    (ix : ParamIndices) (hw : UvcScript) (stop_request : nat -> bool)
    (fuel : nat) (d : Driver) :
  ctrl_rc hw negotiated < 0
  \/ (0 <= ctrl_rc hw negotiated /\ start_rc hw < 0) ->
  let o := acquireStart ix hw stop_request fuel d in
  let rc := if ctrl_rc hw negotiated <? 0 then ctrl_rc hw negotiated
            else start_rc hw in
  rc < 0 /\
  answer o = Some (Some rc) /\
  deviceStatus (state_of o) = rc /\
  uvc (state_of o) = uvc d /\
  moving (state_of o) = moving d /\
  clock (state_of o) = clock d /\
  params (state_of o) !! ADAcquire ix = Some 0 /\
  uvc_calls (trace (state_of o))
  = uvc_calls (trace d)
    ++ CallGetStreamCtrl negotiated
    :: (if ctrl_rc hw negotiated <? 0 then nil
        else CallStartStreaming :: nil) /\
  filter is_error_event (trace (state_of o)) = filter is_error_event (trace d).
Proof.
  intros Hfail. cbv zeta.
  unfold acquireStart, uvc_get_stream_ctrl_format_size, uvc_start_streaming,
    uvc_call, set_deviceStatus, get_deviceStatus, setIntegerParam,
    callParamCallbacks.
  cbv zeta. fold negotiated. run_monad.
  destruct Hfail as [Hc | [Hc Hs]].
  - destruct (Z.ltb_spec (ctrl_rc hw negotiated) 0) as [_ | ?]; [| lia].
    simpl. repeat split; try assumption.
    + apply lookup_insert_eq.
    + unfold uvc_calls. rewrite !flat_map_app. simpl.
      now rewrite !app_nil_r.
    + rewrite !filter_app. simpl. now rewrite !app_nil_r.
  - destruct (Z.ltb_spec (ctrl_rc hw negotiated) 0) as [? | _]; [lia |].
    simpl.
    destruct (Z.ltb_spec (start_rc hw) 0) as [_ | ?]; [| lia].
    simpl. repeat split; try assumption.
    + apply lookup_insert_eq.
    + unfold uvc_calls. rewrite !flat_map_app. simpl.
      rewrite !app_nil_r. now rewrite <- app_assoc.
    + rewrite !filter_app. simpl. now rewrite !app_nil_r.
Qed.

Lemma acquireStart_failure_reverts_witness :
  let hw := mkUvcScript 0 (fun _ => 0) 0 (fun _ => 0) (-6) in
  let d := Sim.idle 2 30 1 in
  let o := acquireStart Sim.indices hw Sim.no_stop 5 d in
  (-6) < 0 /\
  answer o = Some (Some (-6)) /\
  deviceStatus (state_of o) = -6 /\
  uvc (state_of o) = uvc d /\
  moving (state_of o) = moving d /\
  clock (state_of o) = clock d /\
  params (state_of o) !! ADAcquire Sim.indices = Some 0 /\
  uvc_calls (trace (state_of o))
  = uvc_calls (trace d)
    ++ CallGetStreamCtrl negotiated :: CallStartStreaming :: nil /\
  filter is_error_event (trace (state_of o)) = filter is_error_event (trace d).
Proof.
  apply (acquireStart_failure_reverts Sim.indices
           (mkUvcScript 0 (fun _ => 0) 0 (fun _ => 0) (-6)) Sim.no_stop 5
           (Sim.idle 2 30 1)).
  right. simpl. lia.
Defined.

(** X8: in single-shot mode (the operating mode reads 0) a start that the
    camera accepts returns after exactly one second, whatever the iteration
    budget: the running flag is cleared again, the image counter was reset
    to 0, the only hardware calls were the negotiation and the stream start,
    and the camera is left streaming. *)
Theorem single_shot_start_takes_one_second
    (ix : ParamIndices) (hw : UvcScript) (stop_request : nat -> bool)
    (fuel : nat) (d : Driver) :
  0 <= ctrl_rc hw negotiated -> 0 <= start_rc hw ->
  default 0 (params d !! ADUVC_OperatingMode ix) = 0 ->
  stop_request (clock d) = false ->
  let o := acquireStart ix hw stop_request fuel d in
  answer o = Some None /\
  clock (state_of o) = S (clock d) /\
  moving (state_of o) = 0 /\
  streaming (uvc (state_of o)) = true /\
  params (state_of o) = <[ADNumImagesCounter ix := 0]> (params d) /\
  uvc_calls (trace (state_of o))
  = uvc_calls (trace d)
    ++ CallGetStreamCtrl negotiated :: CallStartStreaming :: nil.
Proof.
  intros Hc Hs Hmode Hq. cbv zeta.
  rewrite (acquireStart_enters_timer ix hw stop_request fuel d Hc Hs).
  unfold bind.
  assert (imageHandlerThread ix stop_request fuel (timer_entry ix hw d)
          = Returned tt
              (with_moving 0
                 (with_clock (S (clock d))
                    (emit EvSleep (timer_entry ix hw d))))) as ->.
  { unfold imageHandlerThread, getIntegerParam. run_monad.
    assert (default 0 (<[ADNumImagesCounter ix := 0]> (params d)
                       !! ADUVC_OperatingMode ix) = 0) as ->.
    { rewrite lookup_insert. case_decide; [reflexivity | exact Hmode]. }
    simpl. unfold sleep1. run_monad. rewrite Hq. reflexivity. }
  simpl. repeat split.
  unfold uvc_calls. rewrite <- !app_assoc, flat_map_app. reflexivity.
Qed.

Lemma single_shot_start_takes_one_second_witness :
  let d := Sim.idle 0 30 1 in
  let o := acquireStart Sim.indices Sim.camera_ok Sim.no_stop 0 d in
  answer o = Some None /\
  clock (state_of o) = S (clock d) /\
  moving (state_of o) = 0 /\
  streaming (uvc (state_of o)) = true /\
  params (state_of o) = <[ADNumImagesCounter Sim.indices := 0]> (params d) /\
  uvc_calls (trace (state_of o))
  = uvc_calls (trace d)
    ++ CallGetStreamCtrl negotiated :: CallStartStreaming :: nil.
Proof.
  apply (single_shot_start_takes_one_second Sim.indices Sim.camera_ok
           Sim.no_stop 0 (Sim.idle 0 30 1)); try (simpl; lia); reflexivity.
Defined.

(** ** The timer at its edges *)

Section TimerEdges.

Variable ix : ParamIndices.
Variable stop_request : nat -> bool.

(** An external stop during second [clock d + k] ends the snapshot loop at
    its next test, before the computed length is reached. *)
Lemma snapshot_loop_stopped (k : nat) :
  forall fuel seconds counter d,
    moving d = 1 ->
    0 <= counter ->
    counter + Z.of_nat k < seconds -> seconds <= Int32.max_signed ->
    quiet_for stop_request k d ->
    stop_request (clock d + k) = true ->
    (k < fuel)%nat ->
    exists d',
      snapshot_loop ix stop_request fuel seconds counter d = Returned tt d' /\
      moving d' = 0 /\ clock d' = (clock d + S k)%nat /\
      streaming (uvc d') = false.
Proof.
  induction k as [| k IH]; intros fuel seconds counter d Hm Hc Hlt Hmax Hq Hs Hf;
    (destruct fuel as [| fuel]; [lia |]); simpl; rewrite Hm; simpl;
    (destruct (Z.eqb_spec counter seconds) as [-> | _]; [lia |]); simpl.
  - rewrite Nat.add_0_r in Hs. unfold bind. rewrite (sleep1_stopped ix _ d Hs).
    eexists. split.
    + destruct fuel; simpl; reflexivity.
    + simpl. repeat split. lia.
  - apply quiet_for_step in Hq as [Hq0 Hq].
    unfold bind. rewrite (sleep1_quiet ix stop_request d Hq0).
    assert (Int32.add counter 1 = counter + 1) as ->.
    { unfold Int32.add, Int32.wrap, Int32.modulus, Int32.max_signed in *.
      rewrite Z.mod_small; lia. }
    destruct (IH fuel seconds (counter + 1)
                (with_clock (S (clock d)) (emit EvSleep d)))
      as (d' & Hrun & Hm' & Hc' & Hst'); try assumption; try lia.
    + simpl. rewrite Nat.add_succ_r in Hs. exact Hs.
    + exists d'. simpl in Hc'. repeat split; try assumption. lia.
Qed.

(** With a negative length the counter, which counts up from 0, does not
    meet it before it overflows. *)
Lemma snapshot_loop_negative (fuel : nat) :
  forall seconds counter d,
    seconds < 0 ->
    moving d = 1 ->
    0 <= counter ->
    counter + Z.of_nat fuel <= Int32.max_signed ->
    quiet_for stop_request fuel d ->
    snapshot_loop ix stop_request fuel seconds counter d
    = StillRunning (idle_sleeps fuel d).
Proof.
  induction fuel as [| fuel IH]; intros seconds counter d Hneg Hm Hc Hmax Hq;
    simpl; rewrite Hm; simpl;
    (destruct (Z.eqb_spec counter seconds) as [-> | _]; [lia |]); simpl.
  - reflexivity.
  - apply quiet_for_step in Hq as [Hq0 Hq].
    unfold bind. rewrite (sleep1_quiet ix stop_request d Hq0).
    assert (Int32.add counter 1 = counter + 1) as ->.
    { unfold Int32.add, Int32.wrap, Int32.modulus, Int32.max_signed in *.
      rewrite Z.mod_small; lia. }
    apply IH; try assumption; lia.
Qed.

Lemma camera_untouched_refl d : camera_untouched d d.
Proof. repeat split. Qed.

Lemma camera_untouched_trans d1 d2 d3 :
  camera_untouched d1 d2 -> camera_untouched d2 d3 -> camera_untouched d1 d3.
Proof.
  intros (Hp & Hu & Hs & Ht) (Hp' & Hu' & Hs' & Ht').
  repeat split; congruence.
Qed.

Lemma camera_untouched_sleep d :
  camera_untouched d (with_clock (S (clock d)) (emit EvSleep d)).
Proof.
  repeat split. simpl. unfold uvc_calls. rewrite flat_map_app. simpl.
  now rewrite app_nil_r.
Qed.

Hypothesis never_stopped : forall t, stop_request t = false.

Lemma snapshot_loop_untouched fuel :
  forall seconds counter d,
    camera_untouched d
      (state_of (snapshot_loop ix stop_request fuel seconds counter d)).
Proof.
  induction fuel as [| fuel IH]; intros seconds counter d; simpl.
  - destruct (_ && _); apply camera_untouched_refl.
  - destruct (_ && _); [| apply camera_untouched_refl].
    unfold bind. rewrite (sleep1_quiet ix stop_request d (never_stopped _)).
    eapply camera_untouched_trans; [apply camera_untouched_sleep | apply IH].
Qed.

Lemma continuous_loop_untouched fuel :
  forall d,
    camera_untouched d (state_of (continuous_loop ix stop_request fuel d)).
Proof.
  induction fuel as [| fuel IH]; intros d; simpl.
  - destruct (_ =? _); apply camera_untouched_refl.
  - destruct (_ =? _); [| apply camera_untouched_refl].
    unfold bind. rewrite (sleep1_quiet ix stop_request d (never_stopped _)).
    eapply camera_untouched_trans; [apply camera_untouched_sleep | apply IH].
Qed.

Lemma then_clear_flag_untouched (m : M unit) d :
  camera_untouched d (state_of (m d)) ->
  camera_untouched d (state_of (bind m (fun _ => set_moving 0) d)).
Proof.
  intros H. unfold bind. destruct (m d) as [[] d' | d' | d']; exact H.
Qed.

Lemma imageHandlerThread_untouched fuel d :
  camera_untouched d (state_of (imageHandlerThread ix stop_request fuel d)).
Proof.
  unfold imageHandlerThread, getIntegerParam.
  unfold bind at 1 2 3. unfold gets. 
  apply then_clear_flag_untouched.
  destruct (_ =? 0).
  { rewrite (sleep1_quiet ix stop_request d (never_stopped _)).
    apply camera_untouched_sleep. }
  destruct (_ =? 1).
  { destruct (snapshot_seconds _ _).
    - apply snapshot_loop_untouched.
    - apply camera_untouched_refl. }
  destruct (_ =? 2).
  - apply continuous_loop_untouched.
  - apply camera_untouched_refl.
Qed.

End TimerEdges.

(** X9: with an operating mode other than 0, 1 and 2 the timer does not
    wait at all: for every iteration budget it returns at once, having only
    cleared the running flag. *)
Theorem timer_unknown_mode_returns_at_once
    (ix : ParamIndices) (stop_request : nat -> bool) (fuel : nat) (d : Driver) :
  default 0 (params d !! ADUVC_OperatingMode ix) <> 0 ->
  default 0 (params d !! ADUVC_OperatingMode ix) <> 1 ->
  default 0 (params d !! ADUVC_OperatingMode ix) <> 2 ->
  imageHandlerThread ix stop_request fuel d = Returned tt (with_moving 0 d).
Proof.
  intros H0 H1 H2. unfold imageHandlerThread, getIntegerParam. run_monad.
  destruct (Z.eqb_spec (default 0 (params d !! ADUVC_OperatingMode ix)) 0);
    [contradiction |].
  destruct (Z.eqb_spec (default 0 (params d !! ADUVC_OperatingMode ix)) 1);
    [contradiction |].
  destruct (Z.eqb_spec (default 0 (params d !! ADUVC_OperatingMode ix)) 2);
    [contradiction |].
  reflexivity.
Qed.

Lemma timer_unknown_mode_returns_at_once_witness :
  let d := with_moving 1 (Sim.acquiring 3 30 1) in
  imageHandlerThread Sim.indices (Sim.stop_at 0) 0 d
  = Returned tt (with_moving 0 d).
Proof.
  apply (timer_unknown_mode_returns_at_once Sim.indices (Sim.stop_at 0) 0
           (with_moving 1 (Sim.acquiring 3 30 1)));
    vm_compute; discriminate.
Defined.

(** X10: in snapshot mode a frame rate that reads 0 makes the computation of
    the session length a division by zero: the timer has no result, it has
    not slept, and the running flag is not cleared. *)
Theorem snapshot_zero_framerate_faults
    (ix : ParamIndices) (stop_request : nat -> bool) (fuel : nat) (d : Driver) :
  default 0 (params d !! ADUVC_OperatingMode ix) = 1 ->
  default 0 (params d !! ADUVC_Framerate ix) = 0 ->
  imageHandlerThread ix stop_request fuel d = Fault d.
Proof.
  intros Hmode Hrate. unfold imageHandlerThread, getIntegerParam. run_monad.
  rewrite Hmode, Hrate. reflexivity.
Qed.

Lemma snapshot_zero_framerate_faults_witness :
  let d := with_moving 1 (Sim.acquiring 1 0 30) in
  imageHandlerThread Sim.indices Sim.no_stop 10 d = Fault d.
Proof.
  apply (snapshot_zero_framerate_faults Sim.indices Sim.no_stop 10
           (with_moving 1 (Sim.acquiring 1 0 30))); reflexivity.
Defined.

(** X11: in snapshot mode an external stop is honoured at the next
    one-second tick: when the first stop arrives during second [k] of a
    session whose computed length [n / r + 1] is longer than [k], the timer
    returns after [k + 1] seconds instead of the full length, with the
    camera stopped and the flag cleared. *)
Theorem snapshot_stop_within_one_second
    (ix : ParamIndices) (stop_request : nat -> bool)
    (n r : Z) (k fuel : nat) (d : Driver) :
  0 < n <= Int32.max_signed -> 0 < r -> n / r < Int32.max_signed ->
  params d !! ADUVC_OperatingMode ix = Some 1 ->
  params d !! ADUVC_Framerate ix = Some r ->
  params d !! ADNumImages ix = Some n ->
  moving d = 1 ->
  Z.of_nat k < n / r + 1 ->
  quiet_for stop_request k d ->
  stop_request (clock d + k)%nat = true ->
  (k < fuel)%nat ->
  let o := imageHandlerThread ix stop_request fuel d in
  answer o = Some tt /\
  clock (state_of o) = (clock d + S k)%nat /\
  moving (state_of o) = 0 /\
  streaming (uvc (state_of o)) = false.
Proof.
  intros Hn Hr Hq Hmode Hrate Hcount Hm Hk Hquiet Hstop Hfuel. cbv zeta.
  unfold imageHandlerThread, getIntegerParam. run_monad.
  rewrite Hmode, Hrate, Hcount. simpl.
  rewrite snapshot_seconds_value by assumption.
  destruct (snapshot_loop_stopped ix stop_request k fuel (n / r + 1) 0 d)
    as (d' & Hrun & Hm' & Hc' & Hs'); try assumption; try lia.
  rewrite Hrun. simpl. repeat split; assumption.
Qed.

Lemma snapshot_stop_within_one_second_witness :
  let d := with_moving 1 (Sim.acquiring 1 10 300) in
  let o := imageHandlerThread Sim.indices (Sim.stop_at 2) 100 d in
  answer o = Some tt /\
  clock (state_of o) = (clock d + 3)%nat /\
  moving (state_of o) = 0 /\
  streaming (uvc (state_of o)) = false.
Proof.
  apply (snapshot_stop_within_one_second Sim.indices (Sim.stop_at 2) 300 10
           2 100 (with_moving 1 (Sim.acquiring 1 10 300)));
    try reflexivity; try (unfold Int32.max_signed; lia).
  intros k Hk. unfold Sim.stop_at. apply Nat.eqb_neq. simpl. lia.
Defined.

(** X12: in snapshot mode a computed session length below zero (a negative
    frame count, or a negative frame rate) is never met by the second
    counter, which counts up from 0: without an external stop the timer is
    still waiting after any number of seconds up to [INT_MAX]. *)
Theorem snapshot_negative_length_never_ends
    (ix : ParamIndices) (stop_request : nat -> bool)
    (n r seconds : Z) (fuel : nat) (d : Driver) :
  params d !! ADUVC_OperatingMode ix = Some 1 ->
  params d !! ADUVC_Framerate ix = Some r ->
  params d !! ADNumImages ix = Some n ->
  snapshot_seconds n r = Some seconds ->
  seconds < 0 ->
  moving d = 1 ->
  Z.of_nat fuel <= Int32.max_signed ->
  quiet_for stop_request fuel d ->
  let o := imageHandlerThread ix stop_request fuel d in
  is_running o = true /\
  clock (state_of o) = (clock d + fuel)%nat /\
  moving (state_of o) = 1.
Proof.
  intros Hmode Hrate Hcount Hsec Hneg Hm Hfuel Hquiet. cbv zeta.
  unfold imageHandlerThread, getIntegerParam. run_monad.
  rewrite Hmode, Hrate, Hcount. simpl. rewrite Hsec.
  rewrite (snapshot_loop_negative ix stop_request fuel seconds 0 d);
    try assumption; try lia.
  simpl. repeat split.
  - apply idle_sleeps_clock.
  - now rewrite idle_sleeps_moving.
Qed.

Lemma snapshot_negative_length_never_ends_witness :
  let d := with_moving 1 (Sim.acquiring 1 10 (-20)) in
  let o := imageHandlerThread Sim.indices Sim.no_stop 50 d in
  is_running o = true /\
  clock (state_of o) = (clock d + 50)%nat /\
  moving (state_of o) = 1.
Proof.
  apply (snapshot_negative_length_never_ends Sim.indices Sim.no_stop
           (-20) 10 (-1) 50 (with_moving 1 (Sim.acquiring 1 10 (-20))));
    try reflexivity; try lia.
  - unfold Int32.max_signed. lia.
  - intros k _. reflexivity.
Defined.

(** X13: left to itself the timer never acts on the camera: in every
    operating mode, for every configuration and every iteration budget,
    whether it has returned or not, a timer that no external stop
    interrupts has made no hardware call and has changed neither the
    hardware state, nor any parameter, nor the device status. *)
Theorem timer_alone_never_touches_camera
    (ix : ParamIndices) (stop_request : nat -> bool) (fuel : nat) (d : Driver) :
  (forall t, stop_request t = false) ->
  let d' := state_of (imageHandlerThread ix stop_request fuel d) in
  params d' = params d /\ uvc d' = uvc d /\
  deviceStatus d' = deviceStatus d /\
  uvc_calls (trace d') = uvc_calls (trace d).
Proof.
  intros Hnever. apply imageHandlerThread_untouched. exact Hnever.
Qed.

Lemma timer_alone_never_touches_camera_witness :
  let d := with_moving 1 (Sim.acquiring 1 10 30) in
  let d' := state_of (imageHandlerThread Sim.indices Sim.no_stop 10 d) in
  params d' = params d /\ uvc d' = uvc d /\
  deviceStatus d' = deviceStatus d /\
  uvc_calls (trace d') = uvc_calls (trace d).
Proof.
  apply (timer_alone_never_touches_camera Sim.indices Sim.no_stop 10
           (with_moving 1 (Sim.acquiring 1 10 30))).
  intros t. reflexivity.
Defined.

(** ** Commands through the write handler *)

Section WriteCommands.

Variable ix : ParamIndices.
Variable hw : UvcScript.
Variable stop_request : nat -> bool.
Variable base : Z -> Z -> gmap Z Z -> Z * gmap Z Z.

(** The state in which a stop command that ran the stop procedure leaves
    the driver, up to the device status and a possible error report. *)
Lemma stop_write_runs_stop fuel junk d :
  default 0 (params d !! ADAcquire ix) <> 0 ->
  let o := writeInt32 ix hw stop_request base fuel junk (ADAcquire ix) 0 d in
  answer o = Some None /\
  moving (state_of o) = 0 /\
  uvc (state_of o) = set_streaming false (uvc d) /\
  params (state_of o)
  = <[ADAcquire ix := 0]> (<[ADStatus ix := ADStatusIdle]>
                             (<[ADAcquire ix := 0]> (params d))) /\
  clock (state_of o) = clock d /\
  uvc_calls (trace (state_of o)) = uvc_calls (trace d) ++ CallStopStreaming :: nil.
Proof.
  intros Ha. cbv zeta.
  unfold writeInt32, getIntegerParam, setIntegerParam, callParamCallbacks,
    acquireStop, uvc_stop_streaming, uvc_call, set_moving, set_deviceStatus,
    get_deviceStatus, reportUVCError.
  run_monad. rewrite Z.eqb_refl.
  destruct (Z.eqb_spec (default 0 (params d !! ADAcquire ix)) 0)
    as [? | _]; [contradiction |].
  simpl. destruct (junk <? 0); simpl; repeat split;
    unfold uvc_calls; rewrite <- ?app_assoc, flat_map_app; reflexivity.
Qed.

Lemma acquireStart_single_shot fuel d :
  0 <= ctrl_rc hw negotiated -> 0 <= start_rc hw ->
  default 0 (params d !! ADUVC_OperatingMode ix) = 0 ->
  stop_request (clock d) = false ->
  acquireStart ix hw stop_request fuel d
  = Returned None
      (with_moving 0
         (with_clock (S (clock d)) (emit EvSleep (timer_entry ix hw d)))).
Proof.
  intros Hc Hs Hmode Hq.
  rewrite (acquireStart_enters_timer ix hw stop_request fuel d Hc Hs).
  unfold bind, imageHandlerThread, getIntegerParam. run_monad.
  assert (default 0 (<[ADNumImagesCounter ix := 0]> (params d)
                     !! ADUVC_OperatingMode ix) = 0) as ->.
  { rewrite lookup_insert. case_decide; [reflexivity | exact Hmode]. }
  simpl. unfold sleep1. run_monad. rewrite Hq. reflexivity.
Qed.

(** A start command in single-shot mode, as seen from the write handler. *)
Lemma start_write_single_shot fuel junk value d :
  0 <= ctrl_rc hw negotiated -> 0 <= start_rc hw ->
  value <> 0 ->
  default 0 (params d !! ADAcquire ix) = 0 ->
  ADAcquire ix <> ADUVC_OperatingMode ix ->
  default 0 (params d !! ADUVC_OperatingMode ix) = 0 ->
  stop_request (clock d) = false ->
  let o := writeInt32 ix hw stop_request base fuel junk (ADAcquire ix) value d in
  answer o = Some None /\
  moving (state_of o) = 0 /\
  uvc (state_of o) = set_streaming true (uvc d) /\
  params (state_of o)
  = <[ADNumImagesCounter ix := 0]> (<[ADAcquire ix := value]> (params d)) /\
  clock (state_of o) = S (clock d) /\
  uvc_calls (trace (state_of o))
  = uvc_calls (trace d)
    ++ CallGetStreamCtrl negotiated :: CallStartStreaming :: nil.
Proof.
  intros Hc Hs Hv Ha Hne Hmode Hq. cbv zeta.
  unfold writeInt32. cbv zeta.
  set (start := acquireStart ix hw stop_request fuel).
  unfold getIntegerParam, setIntegerParam, callParamCallbacks,
    set_deviceStatus, get_deviceStatus, reportUVCError.
  run_monad. rewrite Z.eqb_refl, Ha.
  destruct (Z.eqb_spec value 0) as [? | _]; [contradiction |]. simpl.
  subst start. rewrite acquireStart_single_shot; try assumption.
  - simpl. destruct (junk <? 0); simpl; repeat split;
      unfold uvc_calls; rewrite <- ?app_assoc, flat_map_app; reflexivity.
  - simpl. rewrite lookup_insert_ne by exact Hne. exact Hmode.
Qed.

End WriteCommands.

(** X14: a stop command (a write of 0 to the acquire parameter) that arrives
    while the acquire parameter reads non-zero runs the stop procedure: the
    handler comes to its end (without a return statement, so with no
    status), the running flag is cleared, the camera stops streaming while
    context, device reference and handle stay held, the acquire parameter
    reads 0 and the status parameter idle, and the one hardware call made
    is stop-streaming. *)
Theorem stop_while_acquiring_stops_camera
    (ix : ParamIndices) (hw : UvcScript) (stop_request : nat -> bool)
    (base : Z -> Z -> gmap Z Z -> Z * gmap Z Z)
    (fuel : nat) (junk : Z) (d : Driver) :
  default 0 (params d !! ADAcquire ix) <> 0 ->
  let o := writeInt32 ix hw stop_request base fuel junk (ADAcquire ix) 0 d in
  answer o = Some None /\
  moving (state_of o) = 0 /\
  streaming (uvc (state_of o)) = false /\
  contexts (uvc (state_of o)) = contexts (uvc d) /\
  devices (uvc (state_of o)) = devices (uvc d) /\
  handles (uvc (state_of o)) = handles (uvc d) /\
  params (state_of o) !! ADAcquire ix = Some 0 /\
  params (state_of o) !! ADStatus ix = Some ADStatusIdle /\
  uvc_calls (trace (state_of o)) = uvc_calls (trace d) ++ CallStopStreaming :: nil.
Proof.
  intros Ha.
  destruct (stop_write_runs_stop ix hw stop_request base fuel junk d Ha)
    as (Hans & Hm & Hu & Hp & _ & Ht).
  cbv zeta. rewrite Hu, Hp.
  repeat split; try assumption.
  - apply lookup_insert_eq.
  - rewrite lookup_insert. case_decide; [reflexivity |].
    apply lookup_insert_eq.
Qed.

Lemma stop_while_acquiring_stops_camera_witness :
  let d := Sim.acquiring 2 30 1 in
  let o := writeInt32 Sim.indices Sim.camera_ok Sim.no_stop Sim.base 5 0
             (ADAcquire Sim.indices) 0 d in
  answer o = Some None /\
  moving (state_of o) = 0 /\
  streaming (uvc (state_of o)) = false /\
  contexts (uvc (state_of o)) = contexts (uvc d) /\
  devices (uvc (state_of o)) = devices (uvc d) /\
  handles (uvc (state_of o)) = handles (uvc d) /\
  params (state_of o) !! ADAcquire Sim.indices = Some 0 /\
  params (state_of o) !! ADStatus Sim.indices = Some ADStatusIdle /\
  uvc_calls (trace (state_of o)) = uvc_calls (trace d) ++ CallStopStreaming :: nil.
Proof.
  apply (stop_while_acquiring_stops_camera Sim.indices Sim.camera_ok
           Sim.no_stop Sim.base 5 0 (Sim.acquiring 2 30 1)).
  vm_compute. discriminate.
Defined.

(** X15: start and stop compose.  On a driver whose acquire parameter reads
    0, in single-shot mode and with a camera that accepts the stream, a
    start command followed by a stop command both run the handler to its
    end (which hands back no status); the start leaves the camera streaming
    with the acquire parameter holding the written value, and the stop that
    follows ends the stream and brings the acquire parameter back to 0.
    Over the two writes the hardware calls are negotiation, stream start
    and stream stop, in that order. *)
Theorem start_then_stop_round_trip
    (ix : ParamIndices) (hw : UvcScript) (stop_request : nat -> bool)
    (base : Z -> Z -> gmap Z Z -> Z * gmap Z Z)
    (fuel1 fuel2 : nat) (junk1 junk2 value : Z) (d : Driver) :
  0 <= ctrl_rc hw negotiated -> 0 <= start_rc hw ->
  value <> 0 ->
  default 0 (params d !! ADAcquire ix) = 0 ->
  ADAcquire ix <> ADUVC_OperatingMode ix ->
  ADAcquire ix <> ADNumImagesCounter ix ->
  default 0 (params d !! ADUVC_OperatingMode ix) = 0 ->
  stop_request (clock d) = false ->
  let started :=
    writeInt32 ix hw stop_request base fuel1 junk1 (ADAcquire ix) value d in
  let stopped :=
    writeInt32 ix hw stop_request base fuel2 junk2 (ADAcquire ix) 0
      (state_of started) in
  answer started = Some None /\
  streaming (uvc (state_of started)) = true /\
  params (state_of started) !! ADAcquire ix = Some value /\
  answer stopped = Some None /\
  streaming (uvc (state_of stopped)) = false /\
  moving (state_of stopped) = 0 /\
  params (state_of stopped) !! ADAcquire ix = Some 0 /\
  clock (state_of stopped) = S (clock d) /\
  uvc_calls (trace (state_of stopped))
  = uvc_calls (trace d)
    ++ CallGetStreamCtrl negotiated :: CallStartStreaming
    :: CallStopStreaming :: nil.
Proof.
  intros Hc Hs Hv Ha Hmode_ne Hcount_ne Hmode Hq started stopped.
  destruct (start_write_single_shot ix hw stop_request base fuel1 junk1 value d
              Hc Hs Hv Ha Hmode_ne Hmode Hq)
    as (Hans1 & Hm1 & Hu1 & Hp1 & Hc1 & Ht1).
  fold started in Hans1, Hm1, Hu1, Hp1, Hc1, Ht1.
  assert (params (state_of started) !! ADAcquire ix = Some value) as Hacq.
  { rewrite Hp1, lookup_insert_ne by congruence. apply lookup_insert_eq. }
  assert (default 0 (params (state_of started) !! ADAcquire ix) <> 0) as Ha2.
  { rewrite Hacq. exact Hv. }
  destruct (stop_write_runs_stop ix hw stop_request base fuel2 junk2
              (state_of started) Ha2)
    as (Hans2 & Hm2 & Hu2 & Hp2 & Hc2 & Ht2).
  fold stopped in Hans2, Hm2, Hu2, Hp2, Hc2, Ht2.
  repeat split; try assumption.
  - now rewrite Hu1.
  - now rewrite Hu2.
  - rewrite Hp2. apply lookup_insert_eq.
  - now rewrite Hc2, Hc1.
  - rewrite Ht2, Ht1, <- app_assoc. reflexivity.
Qed.

Lemma start_then_stop_round_trip_witness :
  let d := Sim.idle 0 30 1 in
  let started :=
    writeInt32 Sim.indices Sim.camera_ok Sim.no_stop Sim.base 3 0
      (ADAcquire Sim.indices) 1 d in
  let stopped :=
    writeInt32 Sim.indices Sim.camera_ok Sim.no_stop Sim.base 3 0
      (ADAcquire Sim.indices) 0 (state_of started) in
  answer started = Some None /\
  streaming (uvc (state_of started)) = true /\
  params (state_of started) !! ADAcquire Sim.indices = Some 1 /\
  answer stopped = Some None /\
  streaming (uvc (state_of stopped)) = false /\
  moving (state_of stopped) = 0 /\
  params (state_of stopped) !! ADAcquire Sim.indices = Some 0 /\
  clock (state_of stopped) = S (clock d) /\
  uvc_calls (trace (state_of stopped))
  = uvc_calls (trace d)
    ++ CallGetStreamCtrl negotiated :: CallStartStreaming
    :: CallStopStreaming :: nil.
Proof.
  apply (start_then_stop_round_trip Sim.indices Sim.camera_ok Sim.no_stop
           Sim.base 3 3 0 0 1 (Sim.idle 0 30 1));
    try (simpl; lia); try reflexivity; vm_compute; discriminate.
Defined.

(** X16: a write to a base-class parameter (an index below the first
    driver parameter, other than the acquire parameter) is handed to the
    base class after the value has been stored: the parameter table is the
    one the base class returns for the table with the value stored, the
    status of the base class is what the handler tests at its end, an error
    carrying that status being logged exactly when it is not success, and
    neither the camera nor the running flag is touched.  The handler hands
    back no status. *)
Theorem base_parameter_write_delegates
    (ix : ParamIndices) (hw : UvcScript) (stop_request : nat -> bool)
    (base : Z -> Z -> gmap Z Z -> Z * gmap Z Z)
    (fuel : nat) (junk function value : Z) (d : Driver) :
  function <> ADAcquire ix ->
  function < ADUVC_FIRST_PARAM ix ->
  let o := writeInt32 ix hw stop_request base fuel junk function value d in
  let r := base function value (<[function := value]> (params d)) in
  answer o = Some None /\
  params (state_of o) = snd r /\
  uvc (state_of o) = uvc d /\ moving (state_of o) = moving d /\
  deviceStatus (state_of o) = deviceStatus d /\
  trace (state_of o)
  = trace d ++ EvSetParam function value :: EvCallbacks
            :: (if fst r =? 0 then nil
                else EvWriteError (fst r) function value :: nil).
Proof.
  intros Hne Hlt. cbv zeta.
  unfold writeInt32, getIntegerParam, setIntegerParam, callParamCallbacks.
  run_monad.
  destruct (Z.eqb_spec function (ADAcquire ix)) as [? | _]; [contradiction |].
  destruct (Z.ltb_spec function (ADUVC_FIRST_PARAM ix)) as [_ | ?]; [| lia].
  change (params (emit (EvSetParam function value)
                   (with_params (<[function := value]> (params d)) d)))
    with (<[function := value]> (params d)).
  destruct (base function value (<[function := value]> (params d)))
    as [s p]. simpl.
  destruct (s =? 0); simpl; repeat split; rewrite <- ?app_assoc; reflexivity.
Qed.

Lemma base_parameter_write_delegates_witness :
  let d := Sim.idle 2 30 1 in
  let o := writeInt32 Sim.indices Sim.camera_ok Sim.no_stop Sim.base 3 0
             (ADNumImages Sim.indices) 25 d in
  let r := Sim.base (ADNumImages Sim.indices) 25
             (<[ADNumImages Sim.indices := 25]> (params d)) in
  answer o = Some None /\
  params (state_of o) = snd r /\
  uvc (state_of o) = uvc d /\ moving (state_of o) = moving d /\
  deviceStatus (state_of o) = deviceStatus d /\
  trace (state_of o)
  = trace d ++ EvSetParam (ADNumImages Sim.indices) 25 :: EvCallbacks
            :: (if fst r =? 0 then nil
                else EvWriteError (fst r) (ADNumImages Sim.indices) 25 :: nil).
Proof.
  apply (base_parameter_write_delegates Sim.indices Sim.camera_ok Sim.no_stop
           Sim.base 3 0 (ADNumImages Sim.indices) 25 (Sim.idle 2 30 1));
    simpl; lia.
Defined.

(** X17: a start command whose action fails leaves the handler's own status
    untouched: the handler logs no write error and comes to its end, handing
    back no status.  The failure shows in the one [reportUVCError] report
    carrying the negative code of the failing call, in [deviceStatus], which
    holds that code, and in the acquire parameter, which reads 0 again; the
    camera, the running flag and the clock are as before the write. *)
Theorem failed_start_write_logs_no_write_error
    (ix : ParamIndices) (hw : UvcScript) (stop_request : nat -> bool)
    (base : Z -> Z -> gmap Z Z -> Z * gmap Z Z)
    (fuel : nat) (junk value : Z) (d : Driver) :
  value <> 0 ->
  default 0 (params d !! ADAcquire ix) = 0 ->
  ctrl_rc hw negotiated < 0
  \/ (0 <= ctrl_rc hw negotiated /\ start_rc hw < 0) ->
  let o := writeInt32 ix hw stop_request base fuel junk (ADAcquire ix) value d in
  let rc := if ctrl_rc hw negotiated <? 0 then ctrl_rc hw negotiated
            else start_rc hw in
  answer o = Some None /\
  deviceStatus (state_of o) = rc /\
  uvc (state_of o) = uvc d /\ moving (state_of o) = moving d /\
  clock (state_of o) = clock d /\
  params (state_of o) !! ADAcquire ix = Some 0 /\
  filter is_error_event (trace (state_of o))
  = filter is_error_event (trace d)
    ++ EvUvcError "writeInt32"%string rc :: nil.
Proof.
  intros Hv Ha Hfail. cbv zeta.
  unfold writeInt32, acquireStart, uvc_get_stream_ctrl_format_size,
    uvc_start_streaming, uvc_call, getIntegerParam, setIntegerParam,
    callParamCallbacks, set_deviceStatus, get_deviceStatus, reportUVCError.
  cbv zeta. fold negotiated. run_monad. rewrite Z.eqb_refl, Ha.
  destruct (Z.eqb_spec value 0) as [? | _]; [contradiction |]. simpl.
  destruct Hfail as [Hc | [Hc Hs]].
  - destruct (Z.ltb_spec (ctrl_rc hw negotiated) 0) as [_ | ?]; [| lia].
    simpl.
    destruct (Z.ltb_spec (ctrl_rc hw negotiated) 0) as [_ | ?]; [| lia].
    simpl. repeat split.
    + apply lookup_insert_eq.
    + rewrite !filter_app. simpl. now rewrite !app_nil_r.
  - destruct (Z.ltb_spec (ctrl_rc hw negotiated) 0) as [? | _]; [lia |].
    simpl.
    destruct (Z.ltb_spec (start_rc hw) 0) as [_ | ?]; [| lia].
    simpl.
    destruct (Z.ltb_spec (start_rc hw) 0) as [_ | ?]; [| lia].
    simpl. repeat split.
    + apply lookup_insert_eq.
    + rewrite !filter_app. simpl. now rewrite !app_nil_r.
Qed.

Lemma failed_start_write_logs_no_write_error_witness :
  let d := Sim.idle 2 30 1 in
  let o := writeInt32 Sim.indices Sim.camera_no_format Sim.no_stop Sim.base
             3 0 (ADAcquire Sim.indices) 1 d in
  answer o = Some None /\
  deviceStatus (state_of o) = -51 /\
  uvc (state_of o) = uvc d /\ moving (state_of o) = moving d /\
  clock (state_of o) = clock d /\
  params (state_of o) !! ADAcquire Sim.indices = Some 0 /\
  filter is_error_event (trace (state_of o))
  = filter is_error_event (trace d)
    ++ EvUvcError "writeInt32"%string (-51) :: nil.
Proof.
  apply (failed_start_write_logs_no_write_error Sim.indices Sim.camera_no_format
           Sim.no_stop Sim.base 3 0 1 (Sim.idle 2 30 1)).
  - lia.
  - reflexivity.
  - left. simpl. lia.
Defined.

(** ** Frames *)

(** X18: over any sequence of frames the callback takes the port lock once
    per frame and never gives it back, and hands nothing to the consumer:
    after [n] frames the lock is held [n] levels deeper, the list of
    delivered buffers is as it was, and parameters, camera and running flag
    are unchanged. *)
Theorem frames_accumulate_locks_only
    (ix : ParamIndices) (frames : list uvc_frame) (d : Driver) :
  let d' := deliver_frames ix frames d in
  lockDepth d' = (lockDepth d + length frames)%nat /\
  delivered d' = delivered d /\
  params d' = params d /\ uvc d' = uvc d /\ moving d' = moving d /\
  trace d' = trace d ++ repeat EvLock (length frames).
Proof.
  revert d. induction frames as [| f frames IH]; intros d.
  - simpl. repeat split; [lia | now rewrite app_nil_r].
  - change (deliver_frames ix (f :: frames) d)
      with (deliver_frames ix frames
              (emit EvLock (with_lockDepth (S (lockDepth d)) d))).
    destruct (IH (emit EvLock (with_lockDepth (S (lockDepth d)) d)))
      as (Hl & Hd & Hp & Hu & Hm & Ht).
    cbv zeta in *. rewrite Hl, Hd, Hp, Hu, Hm, Ht. simpl.
    repeat split; [lia | now rewrite <- app_assoc].
Qed.

(** ** Identity and life cycle *)

Lemma list_ascii_of_string_append (s t : string) :
  list_ascii_of_string (String.append s t)
  = list_ascii_of_string s ++ list_ascii_of_string t.
Proof.
  induction s as [| c s IH]; simpl; [reflexivity | now rewrite IH].
Qed.

Lemma string_append_inv_tail (s1 s2 t : string) :
  String.append s1 t = String.append s2 t -> s1 = s2.
Proof.
  intros H. apply (f_equal list_ascii_of_string) in H.
  rewrite !list_ascii_of_string_append in H. apply app_inv_tail in H.
  rewrite <- (string_of_list_ascii_of_string s1),
          <- (string_of_list_ascii_of_string s2).
  now rewrite H.
Qed.

(** The model name that [getDeviceInformation] formats. *)
Lemma model_name_value (vendor product : Z) :
  sprintf "UVC Vendor: %d, UVC Product: "
          (ArgInt vendor :: ArgInt product :: nil)
  = String.append "UVC Vendor: "
      (String.append (pretty vendor) ", UVC Product: ").
Proof. reflexivity. Qed.

Lemma getDeviceInformation_model ix sx info p :
  stringParams (getDeviceInformation ix sx info p) !! ADModel sx
  = Some (String.append "UVC Vendor: "
            (String.append (pretty (idVendor info)) ", UVC Product: ")).
Proof.
  unfold getDeviceInformation. cbv zeta. rewrite model_name_value.
  simpl. apply lookup_insert_eq.
Qed.

(** X19: the model name stored by [getDeviceInformation] is the text
    "UVC Vendor: ", the vendor identifier in decimal, and the text
    ", UVC Product: " with nothing after it: the product identifier passed
    to the formatting call is not printed.  Two devices therefore get the
    same model name exactly when their vendor identifiers agree, whatever
    their product identifiers. *)
Theorem model_name_omits_product
    (ix : ParamIndices) (sx : StringIndices)
    (info1 info2 : uvc_device_descriptor) (p1 p2 : Port) :
  stringParams (getDeviceInformation ix sx info1 p1) !! ADModel sx
  = Some (String.append "UVC Vendor: "
            (String.append (pretty (idVendor info1)) ", UVC Product: ")) /\
  (stringParams (getDeviceInformation ix sx info1 p1) !! ADModel sx
   = stringParams (getDeviceInformation ix sx info2 p2) !! ADModel sx
   <-> idVendor info1 = idVendor info2).
Proof.
  split; [apply getDeviceInformation_model |].
  rewrite !getDeviceInformation_model. split.
  - intros H. inversion H as [H1].
    pose proof (string_append_inv_tail (pretty (idVendor info1))
                  (pretty (idVendor info2)) ", UVC Product: " H1) as H2.
    now apply (inj pretty) in H2.
  - intros ->. reflexivity.
Qed.

(** What a connection attempt leaves behind, for every camera. *)
Lemma connect_returns (hw : UvcScript) (serial : Z) (d : Driver) :
  exists d',
    connectToDeviceUVC hw serial d
    = Returned ((0 <=? init_rc hw) && (0 <=? find_rc hw serial)
                && (0 <=? open_rc hw)) d' /\
    params d' = params d /\
    ((0 <=? init_rc hw) && (0 <=? find_rc hw serial) && (0 <=? open_rc hw)
     = true ->
     uvc d' = acquire_handle (acquire_device (acquire_context (uvc d))) /\
     uvc_calls (trace d')
     = uvc_calls (trace d) ++ CallInit :: CallFindDevice serial :: CallOpen :: nil) /\
    ((0 <=? init_rc hw) && (0 <=? find_rc hw serial) && (0 <=? open_rc hw)
     = false -> handles (uvc d') = handles (uvc d)).
Proof.
  unfold connectToDeviceUVC, uvc_init, uvc_find_device, uvc_open, uvc_call.
  run_monad.
  destruct (Z.ltb_spec (init_rc hw) 0) as [Hi | Hi]; simpl.
  { destruct (Z.leb_spec 0 (init_rc hw)); [lia |]. simpl.
    eexists. repeat split; discriminate. }
  destruct (Z.leb_spec 0 (init_rc hw)); [| lia]. simpl.
  destruct (Z.ltb_spec (find_rc hw serial) 0) as [Hf | Hf]; simpl.
  { destruct (Z.leb_spec 0 (find_rc hw serial)); [lia |]. simpl.
    eexists. repeat split; discriminate. }
  destruct (Z.leb_spec 0 (find_rc hw serial)); [| lia]. simpl.
  destruct (Z.ltb_spec (open_rc hw) 0) as [Ho | Ho]; simpl.
  { destruct (Z.leb_spec 0 (open_rc hw)); [lia |].
    eexists. repeat split; discriminate. }
  destruct (Z.leb_spec 0 (open_rc hw)); [| lia].
  eexists. repeat split; try discriminate.
  simpl. unfold uvc_calls. rewrite <- !app_assoc, flat_map_app. reflexivity.
Qed.

(** The report a failed connection attempt leaves behind. *)
Lemma connect_failure_reports (hw : UvcScript) (serial : Z) (d : Driver) :
  init_rc hw < 0 \/ find_rc hw serial < 0 \/ open_rc hw < 0 ->
  let rc := if init_rc hw <? 0 then init_rc hw
            else if find_rc hw serial <? 0 then find_rc hw serial
            else open_rc hw in
  exists d',
    connectToDeviceUVC hw serial d = Returned false d' /\
    rc < 0 /\
    params d' = params d /\
    handles (uvc d') = handles (uvc d) /\
    deviceStatus d' = rc /\
    filter is_error_event (trace d')
    = filter is_error_event (trace d)
      ++ EvUvcError "connectToDeviceUVC"%string rc :: nil.
Proof.
  intros Hfail. cbv zeta.
  unfold connectToDeviceUVC, uvc_init, uvc_find_device, uvc_open, uvc_call.
  run_monad.
  destruct (Z.ltb_spec (init_rc hw) 0) as [Hi | Hi]; simpl.
  { eexists. repeat split; try assumption; try lia.
    simpl. rewrite !filter_app. simpl. now rewrite ?app_nil_r. }
  destruct (Z.ltb_spec (find_rc hw serial) 0) as [Hf | Hf]; simpl.
  { eexists. repeat split; try assumption; try lia.
    simpl. rewrite !filter_app. simpl. now rewrite ?app_nil_r. }
  destruct (Z.ltb_spec (open_rc hw) 0) as [Ho | Ho]; simpl; [| lia].
  eexists. repeat split; try assumption; try lia.
  simpl. rewrite !filter_app. simpl. now rewrite ?app_nil_r.
Qed.

(** X20: [ADUVCConfig] answers success even when the camera cannot be
    connected.  In that case the frame rate passed in has been stored, no
    device handle has been opened and no string parameter (manufacturer,
    model) has been set.  The failure is reported twice, by
    [connectToDeviceUVC] through [reportUVCError] with the code of the first
    failing step, which also stays in [deviceStatus], and by the
    constructor's message "ADUVC::ADUVC Connection failed, abort". *)
Theorem config_succeeds_without_camera
    (ix : ParamIndices) (sx : StringIndices) (hw : UvcScript)
    (info : uvc_device_descriptor) (serial framerate : Z) (p : Port) :
  init_rc hw < 0 \/ find_rc hw serial < 0 \/ open_rc hw < 0 ->
  let r := ADUVCConfig ix sx hw info serial framerate p in
  let rc := if init_rc hw <? 0 then init_rc hw
            else if find_rc hw serial <? 0 then find_rc hw serial
            else open_rc hw in
  fst r = asynSuccess /\
  params (drv (snd r)) = <[ADUVC_Framerate ix := framerate]> (params (drv p)) /\
  handles (uvc (drv (snd r))) = handles (uvc (drv p)) /\
  stringParams (snd r) = stringParams p /\
  deviceStatus (drv (snd r)) = rc /\
  filter is_error_event (trace (drv (snd r)))
  = filter is_error_event (trace (drv p))
    ++ EvUvcError "connectToDeviceUVC"%string rc :: nil /\
  console (snd r)
  = console p
    ++ String.append "ADUVC::ADUVC Connection failed, abort"
                     (String "010" EmptyString) :: nil.
Proof.
  intros Hfail. cbv zeta. unfold ADUVCConfig, construct. cbv zeta.
  split; [reflexivity |].
  destruct (connect_failure_reports hw serial
              (drv (on_driver (setIntegerParam (ADUVC_Framerate ix) framerate) p))
              Hfail)
    as (d' & Hrun & _ & Hp & Hh & Hs & Ht).
  rewrite Hrun. simpl.
  repeat split; try assumption.
  rewrite Ht. simpl. rewrite !filter_app. simpl. now rewrite !app_nil_r.
Qed.

Lemma config_succeeds_without_camera_witness :
  let p := mkPort Sim.fresh ∅ nil in
  let r := ADUVCConfig Sim.indices (mkStringIndices 20 21) Sim.camera_absent
             (mkDescriptor 1133 2085 77 "Logitech") 77 30 p in
  fst r = asynSuccess /\
  params (drv (snd r))
  = <[ADUVC_Framerate Sim.indices := 30]> (params (drv p)) /\
  handles (uvc (drv (snd r))) = handles (uvc (drv p)) /\
  stringParams (snd r) = stringParams p /\
  deviceStatus (drv (snd r)) = -4 /\
  filter is_error_event (trace (drv (snd r)))
  = filter is_error_event (trace (drv p))
    ++ EvUvcError "connectToDeviceUVC"%string (-4) :: nil /\
  console (snd r)
  = console p
    ++ String.append "ADUVC::ADUVC Connection failed, abort"
                     (String "010" EmptyString) :: nil.
Proof.
  apply (config_succeeds_without_camera Sim.indices (mkStringIndices 20 21)
           Sim.camera_absent (mkDescriptor 1133 2085 77 "Logitech") 77 30
           (mkPort Sim.fresh ∅ nil)).
  right. left. simpl. lia.
Defined.

(** X21: with a camera that connects, [ADUVCConfig] answers success with
    the device connected (context, device reference and handle acquired)
    and its identity published: the manufacturer string and the model name
    are stored, the serial-number parameter holds the serial number of the
    descriptor, the frame-rate parameter holds the frame rate passed in, and
    nothing is printed.  The exit hook then gives back all three resources,
    so that over the whole life of the object the hardware calls are init,
    find, open, get-descriptor, free-descriptor, close, unref and exit,
    after which the port is disconnected. *)
Theorem config_connects_and_publishes_identity
    (ix : ParamIndices) (sx : StringIndices) (hw : UvcScript)
    (info : uvc_device_descriptor) (serial framerate : Z) (p : Port) :
  0 <= init_rc hw -> 0 <= find_rc hw serial -> 0 <= open_rc hw ->
  ADManufacturer sx <> ADModel sx ->
  ADUVC_Framerate ix <> ADUVC_SerialNumber ix ->
  let r := ADUVCConfig ix sx hw info serial framerate p in
  let e := exitCallbackC (snd r) in
  fst r = asynSuccess /\
  uvc (drv (snd r))
  = acquire_handle (acquire_device (acquire_context (uvc (drv p)))) /\
  stringParams (snd r) !! ADManufacturer sx = Some (manufacturer info) /\
  stringParams (snd r) !! ADModel sx
  = Some (String.append "UVC Vendor: "
            (String.append (pretty (idVendor info)) ", UVC Product: ")) /\
  params (drv (snd r)) !! ADUVC_SerialNumber ix = Some (serialNumber info) /\
  params (drv (snd r)) !! ADUVC_Framerate ix = Some framerate /\
  console (snd r) = console p /\
  contexts (uvc (drv e)) = contexts (uvc (drv p)) /\
  devices (uvc (drv e)) = devices (uvc (drv p)) /\
  handles (uvc (drv e)) = handles (uvc (drv p)) /\
  uvc_calls (trace (drv e))
  = uvc_calls (trace (drv p))
    ++ CallInit :: CallFindDevice serial :: CallOpen
    :: CallGetDeviceDescriptor :: CallFreeDeviceDescriptor
    :: CallClose :: CallUnrefDevice :: CallExit :: nil /\
  (exists before, trace (drv e) = before ++ EvDisconnect :: nil).
Proof.
  intros Hi Hf Ho Hsx Hix. cbv zeta.
  unfold exitCallbackC, ADUVCConfig, construct. cbv zeta.
  split; [reflexivity |].
  destruct (connect_returns hw serial
              (drv (on_driver (setIntegerParam (ADUVC_Framerate ix) framerate) p)))
    as (d' & Hrun & Hp & Hok & _).
  assert ((0 <=? init_rc hw) && (0 <=? find_rc hw serial) && (0 <=? open_rc hw)
          = true) as Hb.
  { destruct (Z.leb_spec 0 (init_rc hw)); [| lia].
    destruct (Z.leb_spec 0 (find_rc hw serial)); [| lia].
    destruct (Z.leb_spec 0 (open_rc hw)); [reflexivity | lia]. }
  rewrite Hb in Hrun. rewrite Hrun. destruct (Hok Hb) as [Hu Ht].
  simpl in Hp, Hu, Ht. simpl answer. cbv iota.
  unfold getDeviceInformation. cbv zeta. rewrite model_name_value.
  unfold on_driver, setStringParam, setIntegerParam,
    destroy, uvc_get_device_descriptor, uvc_free_device_descriptor,
    uvc_close, uvc_unref_device, uvc_exit, disconnect, uvc_call.
  run_monad.
  rewrite Hu, Hp. simpl.
  repeat split.
  - rewrite lookup_insert_ne by congruence. apply lookup_insert_eq.
  - apply lookup_insert_eq.
  - apply lookup_insert_eq.
  - rewrite lookup_insert_ne by congruence. apply lookup_insert_eq.
  - unfold uvc_calls in *. rewrite !flat_map_app. simpl.
    rewrite !app_nil_r.
    rewrite !flat_map_app in Ht. simpl in Ht. rewrite !app_nil_r in Ht.
    rewrite Ht. rewrite <- !app_assoc. reflexivity.
  - eexists. reflexivity.
Qed.

Lemma config_connects_and_publishes_identity_witness :
  let p := mkPort Sim.fresh ∅ nil in
  let r := ADUVCConfig Sim.indices (mkStringIndices 20 21) Sim.camera_ok
             (mkDescriptor 1133 2085 77 "Logitech") 77 30 p in
  stringParams (snd r) !! 21
  = Some (String.append "UVC Vendor: "
            (String.append (pretty 1133) ", UVC Product: ")) /\
  params (drv (snd r)) !! ADUVC_SerialNumber Sim.indices = Some 77 /\
  handles (uvc (drv (exitCallbackC (snd r)))) = handles (uvc (drv p)) /\
  uvc_calls (trace (drv (exitCallbackC (snd r))))
  = uvc_calls (trace (drv p))
    ++ CallInit :: CallFindDevice 77 :: CallOpen
    :: CallGetDeviceDescriptor :: CallFreeDeviceDescriptor
    :: CallClose :: CallUnrefDevice :: CallExit :: nil.
Proof.
  pose proof (config_connects_and_publishes_identity Sim.indices
                (mkStringIndices 20 21) Sim.camera_ok
                (mkDescriptor 1133 2085 77 "Logitech") 77 30
                (mkPort Sim.fresh ∅ nil)
                ltac:(simpl; lia) ltac:(simpl; lia) ltac:(simpl; lia)
                ltac:(simpl; lia) ltac:(simpl; lia))
    as (_ & _ & _ & Hmodel & Hserial & _ & _ & _ & _ & Hh & Hcalls & _).
  split; [exact Hmodel |]. split; [exact Hserial |].
  split; [exact Hh | exact Hcalls].
Defined.
